(** * mavteleop: joystick teleoperation for a copter UAV

    A shallow embedding of [mavros_extras/mavteleop.py] and the properties
    of its input-to-control-mode mapping: the linear range mapping
    [arduino_map], the per-channel calibration [RCChan], the button-triggered
    overlays [RCMode], and the four per-sample callbacks [joy_cb] of the
    RC-override, attitude, velocity and position control types.

    Python values are modelled as the code uses them: numbers are either
    [int] or [float] with Python's coercion rules, list indexing accepts
    negative indices and raises [IndexError] out of range, dictionaries are
    finite maps over strings, and a callback is a state-and-exception
    computation that records the requests it sends and the messages it
    publishes.  The [rospy.logdebug] lines have no effect on any of these
    and are left out; command-line parsing and node start-up in [main] are
    not part of the model. *)

From Stdlib Require Import ZArith QArith Lqa PrimFloat SpecFloat FloatOps.
From stdpp Require Import gmap strings list fin_maps.

Local Open Scope Z_scope.

(** ** Exceptions and results *)

Inductive exn :=
| IndexError
| KeyError (key : string)
| ZeroDivisionError
| OverflowError
| NameError (name : string)
| ServiceException.

Inductive result (A : Type) :=
| Ok (a : A)
| Raise (e : exn).
Arguments Ok {A} a.
Arguments Raise {A} e.

#[global] Instance result_ret : MRet result := fun A a => Ok a.
#[global] Instance result_bind : MBind result := fun A B f m =>
  match m with
  | Ok a => f a
  | Raise e => Raise e
  end.

(** ** Floating-point interface

    The script computes on Python floats.  The operations it uses are kept
    behind an interface with two instances: exact rational arithmetic
    (where the algebraic laws are stated) and IEEE binary64 (what CPython
    runs). *)

Class Float (F : Type) := {
  fadd : F -> F -> F;
  fsub : F -> F -> F;
  fmul : F -> F -> F;
  fdiv : F -> F -> F;
  fopp : F -> F;
  fzero : F;                     (* the literal 0.0 *)
  fone : F;                      (* the literal 1.0 *)
  fis_zero : F -> bool;          (* x == 0.0 *)
  fof_Z : Z -> option F          (* float(n); None is OverflowError *)
}.

#[global] Instance Q_Float : Float Q := {|
  fadd := Qplus;
  fsub := Qminus;
  fmul := Qmult;
  fdiv := Qdiv;
  fopp := Qopp;
  fzero := 0%Q;
  fone := 1%Q;
  fis_zero := fun x => Qeq_bool x 0%Q;
  fof_Z := fun z => Some (inject_Z z)
|}.

(** Correctly rounded conversion of an integer to binary64. *)
Definition binary64_of_Z (z : Z) : float :=
  SF2Prim (binary_normalize 53 1024 z 0 false).

#[global] Instance binary64_Float : Float float := {|
  fadd := PrimFloat.add;
  fsub := PrimFloat.sub;
  fmul := PrimFloat.mul;
  fdiv := PrimFloat.div;
  fopp := PrimFloat.opp;
  fzero := 0%float;
  fone := 1%float;
  fis_zero := fun x => PrimFloat.eqb x 0%float;
  fof_Z := fun z =>
    let f := binary64_of_Z z in
    if PrimFloat.is_infinity f then None else Some f
|}.

(** ** Python numbers *)

Section Numbers.
Context {F : Type} `{Float F}.

Inductive pynum :=
| PyInt (z : Z)
| PyFloat (f : F).

Definition to_float (v : pynum) : result F :=
  match v with
  | PyInt z =>
      match fof_Z z with
      | Some f => Ok f
      | None => Raise OverflowError
      end
  | PyFloat f => Ok f
  end.

(** [int op int] stays an integer; any float operand makes both floats. *)
Definition py_arith (zop : Z -> Z -> Z) (fop : F -> F -> F)
    (a b : pynum) : result pynum :=
  match a, b with
  | PyInt x, PyInt y => Ok (PyInt (zop x y))
  | _, _ => x ← to_float a; y ← to_float b; Ok (PyFloat (fop x y))
  end.

Definition py_add := py_arith Z.add fadd.
Definition py_sub := py_arith Z.sub fsub.
Definition py_mul := py_arith Z.mul fmul.

(** The [/] operator.  The module does not import [division] from
    [__future__], so two integers divide with floor; a zero divisor
    raises in both the integer and the float case. *)
Definition py_div (a b : pynum) : result pynum :=
  match a, b with
  | PyInt x, PyInt y =>
      if y =? 0 then Raise ZeroDivisionError else Ok (PyInt (x / y))
  | _, _ =>
      x ← to_float a; y ← to_float b;
      if fis_zero y then Raise ZeroDivisionError else Ok (PyFloat (fdiv x y))
  end.

(** [def arduino_map(x, inmin, inmax, outmin, outmax):
       return (x - inmin) * (outmax - outmin) / (inmax - inmin) + outmin] *)
Definition arduino_map (x inmin inmax outmin outmax : pynum) : result pynum :=
  a ← py_sub x inmin;
  b ← py_sub outmax outmin;
  c ← py_mul a b;
  d ← py_sub inmax inmin;
  q ← py_div c d;
  py_add q outmin.

End Numbers.
Arguments pynum F : clear implicits.

(** The rational a Python number stands for, when floats are rationals. *)
Definition num_val (v : pynum Q) : Q :=
  match v with
  | PyInt z => inject_Z z
  | PyFloat q => q
  end.

(** ** Python sequences *)

(** Position denoted by index [i] in a sequence of length [len]: negative
    indices count from the end, anything else is out of range. *)
Definition py_index (len : nat) (i : Z) : option nat :=
  if 0 <=? i then
    if i <? Z.of_nat len then Some (Z.to_nat i) else None
  else
    if - Z.of_nat len <=? i then Some (Z.to_nat (Z.of_nat len + i)) else None.

(** [l[i]] *)
Definition py_getitem {A} (l : list A) (i : Z) : result A :=
  match py_index (length l) i with
  | Some k =>
      match l !! k with
      | Some a => Ok a
      | None => Raise IndexError
      end
  | None => Raise IndexError
  end.

(** [l[i] = v] *)
Definition py_setitem {A} (l : list A) (i : Z) (v : A) : result (list A) :=
  match py_index (length l) i with
  | Some k => Ok (<[k := v]> l)
  | None => Raise IndexError
  end.

(** [d[k]] *)
Definition py_dict_get {A} (d : gmap string A) (k : string) : result A :=
  match d !! k with
  | Some a => Ok a
  | None => Raise (KeyError k)
  end.

(** ** Messages, events and the callback monad *)

Section Messages.
Context {F : Type}.

(** [sensor_msgs/Joy]: float axes and integer buttons. *)
Record Joy := { axes : list F; buttons : list Z }.

(** [geometry_msgs] [Point] and [Vector3]: three coordinates. *)
Record Vector3 := { v_x : pynum F; v_y : pynum F; v_z : pynum F }.

(** The four components that [Quaternion( *q)] receives. *)
Definition Quaternion : Type := (F * F * F * F)%type.

Inductive msg :=
| OverrideRCIn (channels : list (pynum F))
| PoseStamped (stamp : Z) (position : Vector3) (orientation : Quaternion)
| Float64 (data : pynum F)
| TwistStamped (stamp : Z) (linear angular : Vector3).

(** What a callback does to the outside world, in order. *)
Inductive event :=
| EvArming (value : bool)                (* command.arming(value=...) *)
| EvLogInfo (text : string)              (* rospy.loginfo(...) *)
| EvPublish (pub : string) (m : msg).    (* <pub>.publish(...) *)

(** What the middleware answers during one callback. *)
Inductive arming_reply :=
| ArmingRaises                           (* rospy.ServiceException *)
| ArmingReturns (success : bool).

Record env := {
  get_rostime : Z;
  command_arming_reply : bool -> arming_reply
}.

(** A computation over mutable state [S]: it ends normally or with an
    exception, leaves a state behind either way, and lists its events. *)
Definition M (S A : Type) : Type := S -> result A * S * list event.

Definition ret {S A} (a : A) : M S A := fun s => (Ok a, s, []).

Definition bind {S A B} (m : M S A) (k : A -> M S B) : M S B := fun s =>
  match m s with
  | (Ok a, s1, t1) =>
      match k a s1 with
      | (r, s2, t2) => (r, s2, t1 ++ t2)
      end
  | (Raise e, s1, t1) => (Raise e, s1, t1)
  end.

Definition raise {S A} (e : exn) : M S A := fun s => (Raise e, s, []).

Definition lift {S A} (r : result A) : M S A := fun s => (r, s, []).

Definition get {S} : M S S := fun s => (Ok s, s, []).

Definition put {S} (s' : S) : M S unit := fun _ => (Ok tt, s', []).

Definition emit {S} (ev : event) : M S unit := fun s => (Ok tt, s, [ev]).

(** [try: m  except: h] *)
Definition try_except {S A} (m : M S A) (h : exn -> M S A) : M S A := fun s =>
  match m s with
  | (Ok a, s1, t1) => (Ok a, s1, t1)
  | (Raise e, s1, t1) =>
      match h e s1 with
      | (r, s2, t2) => (r, s2, t1 ++ t2)
      end
  end.

(** [for x in l: body(x)] *)
Fixpoint for_each {S A} (l : list A) (body : A -> M S unit) : M S unit :=
  match l with
  | [] => ret tt
  | x :: l' => bind (body x) (fun _ => for_each l' body)
  end.

End Messages.
Arguments Joy F : clear implicits.
Arguments Vector3 F : clear implicits.
Arguments Quaternion F : clear implicits.
Arguments msg F : clear implicits.
Arguments event F : clear implicits.
Arguments M F S A : clear implicits.

Declare Scope py_scope.
Delimit Scope py_scope with py.
Notation "x <- m ;; k" := (bind m (fun x => k))
  (at level 100, m at next level, right associativity) : py_scope.
Notation "m ;; k" := (bind m (fun _ => k))
  (at level 100, right associativity) : py_scope.

(** ** [class RCChan] *)

Module RCChan.
Section Defs.
Context {F : Type} `{Float F}.

Record t := {
  name : string;
  chan : Z;
  min : pynum F;
  max : pynum F;
  min_pos : F
}.

(** [RCChan(name, chan, min_pos=-1.0)] *)
Definition init (name : string) (chan : Z) (min_pos : F) : t :=
  {| name := name; chan := chan;
     min := PyInt 1000; max := PyInt 2000; min_pos := min_pos |}.

(** [load_param]: each field is replaced by the parameter of that name
    when the parameter server has one. *)
Definition load_param (get_int : string -> Z -> Z)
    (get_num : string -> pynum F -> pynum F) (self : t) : t :=
  {| name := name self;
     chan := get_int ("~rc_map/" +:+ name self) (chan self);
     min := get_num ("~rc_min/" +:+ name self) (min self);
     max := get_num ("~rc_max/" +:+ name self) (max self);
     min_pos := min_pos self |}.

(** [calc_us(self, pos)] *)
Definition calc_us (self : t) (pos : pynum F) : result (pynum F) :=
  arduino_map pos (PyFloat (min_pos self)) (PyFloat fone) (min self) (max self).

End Defs.
Arguments t F : clear implicits.
End RCChan.

(** ** [class RCMode] *)

Module RCMode.
Section Defs.
Context {F : Type}.

Record t := {
  name : string;
  joy_flags : list (Z * Z);
  rc_channel : Z;
  rc_value : pynum F
}.

(** The loop of [is_toggled] over the remaining [(btn, flag)] pairs. *)
Fixpoint flags_match (flags : list (Z * Z)) (joy : Joy F) : result bool :=
  match flags with
  | [] => Ok true
  | (btn, flag) :: rest =>
      b ← py_getitem (buttons joy) btn;
      if negb (b =? flag) then Ok false else flags_match rest joy
  end.

Definition is_toggled (self : t) (joy : Joy F) : result bool :=
  flags_match (joy_flags self) joy.

(** [apply_mode(self, joy, rc)]: [rc.channels] is the state. *)
Definition apply_mode (self : t) (joy : Joy F) : M F (list (pynum F)) unit :=
  (toggled <- lift (is_toggled self joy);;
   if (toggled : bool) then
     channels <- get;;
     channels' <- lift (py_setitem channels (rc_channel self) (rc_value self));;
     put channels'
   else ret tt)%py.

(** One entry of the [~rc_modes/] dictionary: the three fields the
    constructor call reads, each of them present or not. *)
Record data := {
  data_joy_flags : option (list (Z * Z));
  data_rc_channel : option Z;
  data_rc_value : option (pynum F)
}.

(** [data[key]] *)
Definition field {A} (key : string) (value : option A) : result A :=
  match value with
  | Some a => Ok a
  | None => Raise (KeyError key)
  end.

(** [RCMode(name, data['joy_flags'], data['rc_channel'], data['rc_value'])]:
    the three subscripts are evaluated from left to right. *)
Definition of_item (name : string) (d : data) : result t :=
  flags ← field "joy_flags" (data_joy_flags d);
  ch ← field "rc_channel" (data_rc_channel d);
  v ← field "rc_value" (data_rc_value d);
  Ok {| name := name; joy_flags := flags; rc_channel := ch; rc_value := v |}.

(** The list comprehension over [yaml.items()]: it stops at the first entry
    that raises. *)
Fixpoint of_items (items : list (string * data)) : result (list t) :=
  match items with
  | [] => Ok []
  | (name, d) :: rest =>
      m ← of_item name d;
      ms ← of_items rest;
      Ok (m :: ms)
  end.

(** [load_param]: the [~rc_modes/] dictionary must exist; its entries
    are taken in the order the dictionary yields them. *)
Definition load_param (yaml : option (list (string * data)))
    : result (list t) :=
  match yaml with
  | None => Raise (KeyError "~rc_modes/")
  | Some items => of_items items
  end.

End Defs.
Arguments t F : clear implicits.
Arguments data F : clear implicits.
End RCMode.

(** ** Module-level tables and helpers *)

Section Teleop.
Context {F : Type} `{Float F}.

(** The module-level dictionaries, as the callbacks read them. *)
Record config := {
  axes_map : gmap string Z;
  axes_scale : gmap string (pynum F);
  button_map : gmap string Z;
  rc_channels : gmap string (RCChan.t F)
}.

(** Their values when the module is imported. *)
Definition initial_config : config := {|
  axes_map :=
    {[ "roll" := 3; "pitch" := 4; "yaw" := 0; "throttle" := 1 ]};
  axes_scale :=
    {[ "roll" := PyFloat fone; "pitch" := PyFloat fone;
       "yaw" := PyFloat fone; "throttle" := PyFloat fone ]};
  button_map :=
    {[ "arm" := 0; "disarm" := 1; "takeoff" := 2; "land" := 3;
       "enable" := 4 ]};
  rc_channels :=
    {[ "roll" := RCChan.init "roll" 0 (fopp fone);
       "pitch" := RCChan.init "pitch" 1 (fopp fone);
       "yaw" := RCChan.init "yaw" 3 (fopp fone);
       "throttle" := RCChan.init "throttle" 2 fzero ]}
|}.

(** The parameter server, read at start-up.  Index parameters are
    integers, scales and pulse bounds are numbers. *)
Record param_server := {
  int_params : gmap string Z;
  num_params : gmap string (pynum F);
  bool_params : gmap string bool;
  rc_modes_yaml : option (list (string * RCMode.data F))
}.

(** [rospy.get_param(key, dflt)] *)
Definition get_param {V} (store : gmap string V) (key : string) (dflt : V) : V :=
  default dflt (store !! key).

(** [load_map(m, n)]: every key of [m] gets the parameter [n + k], or
    keeps its value when that parameter is not set. *)
Definition load_map {V} (store : gmap string V) (m : gmap string V)
    (n : string) : gmap string V :=
  map_imap (fun k v => Some (get_param store (n +:+ k) v)) m.

(** The three [load_map] calls every control type starts with. *)
Definition load_maps (ps : param_server) (cfg : config) : config := {|
  axes_map := load_map (int_params ps) (axes_map cfg) "~axes_map/";
  axes_scale := load_map (num_params ps) (axes_scale cfg) "~axes_scale/";
  button_map := load_map (int_params ps) (button_map cfg) "~button_map/";
  rc_channels := rc_channels cfg
|}.

(** [get_axis(j, n)] *)
Definition get_axis (cfg : config) (j : Joy F) (n : string) : result (pynum F) :=
  i ← py_dict_get (axes_map cfg) n;
  a ← py_getitem (axes j) i;
  s ← py_dict_get (axes_scale cfg) n;
  py_mul (PyFloat a) s.

(** [get_buttons(j, n)] *)
Definition get_buttons (cfg : config) (j : Joy F) (n : string) : result Z :=
  i ← py_dict_get (button_map cfg) n;
  py_getitem (buttons j) i.

(** [command.arming(value=state)]: the request goes out, then the
    service either raises or answers. *)
Definition command_arming {S} (e : env) (value : bool) : M F S bool :=
  (emit (EvArming value);;
   match command_arming_reply e value with
   | ArmingRaises => raise ServiceException
   | ArmingReturns success => ret success
   end)%py.

(** Reading the name [n]: its value when a binding is in scope,
    [NameError] when none is. *)
Definition read_name {S A} (n : string) (binding : option A) : M F S A :=
  match binding with
  | Some v => ret v
  | None => raise (NameError n)
  end.

(** [arm(args, state)].  The handler calls [fault], which the module
    neither defines nor imports; the answer of [command.arming] is not
    assigned, so when the statement after the [try] reads [ret.success] no
    binding of [ret] is in scope either. *)
Definition arm {S} (e : env) (state : bool) : M F S unit :=
  (try_except
     (_ <- command_arming e state;; ret tt)
     (fun ex =>
        match ex with
        | ServiceException =>
            fault <- read_name "fault" (None : option (exn -> M F S unit));;
            fault ex
        | _ => raise ex
        end);;
   success <- read_name "ret" (None : option bool);;
   if negb success then emit (EvLogInfo "Request failed.")
   else emit (EvLogInfo "Request success."))%py.

End Teleop.
Arguments config F : clear implicits.
Arguments param_server F : clear implicits.

(** ** RC override control type *)

Module rc_override_control.
Section Defs.
Context {F : Type} `{Float F}.
Variable cfg : config F.
Variable rc_modes : list (RCMode.t F).

(** The inner [set_chan(n, v)]; the state is [rc.channels]. *)
Definition set_chan (n : string) (v : pynum F) : M F (list (pynum F)) unit :=
  (ch <- lift (py_dict_get (rc_channels cfg) n);;
   us <- lift (RCChan.calc_us ch v);;
   channels <- get;;
   channels' <- lift (py_setitem channels (RCChan.chan ch) us);;
   put channels')%py.

(** Calibrations first, overlays after them, then the frame is
    published. *)
Definition joy_cb (joy : Joy F) : M F (list (pynum F)) unit :=
  (roll <- lift (get_axis cfg joy "roll");;
   pitch <- lift (get_axis cfg joy "pitch");;
   yaw <- lift (get_axis cfg joy "yaw");;
   throttle <- lift (t ← get_axis cfg joy "throttle";
                     arduino_map t (PyFloat (fopp fone)) (PyFloat fone)
                                   (PyFloat fzero) (PyFloat fone));;
   set_chan "roll" roll;;
   set_chan "pitch" pitch;;
   set_chan "yaw" yaw;;
   set_chan "throttle" throttle;;
   for_each rc_modes (fun m => RCMode.apply_mode m joy);;
   rc <- get;;
   emit (EvPublish "override_pub" (OverrideRCIn rc)))%py.

End Defs.

Section Setup.
Context {F : Type} `{Float F}.

(** Start-up up to the subscription: the loaded tables, the overlays and
    the frame [OverrideRCIn()], whose channel count comes from the
    message definition. *)
Definition setup (ps : param_server F) (n_channels : nat)
    : result (config F * list (RCMode.t F) * list (pynum F)) :=
  let cfg := load_maps ps initial_config in
  let cfg := {|
    axes_map := axes_map cfg;
    axes_scale := axes_scale cfg;
    button_map := button_map cfg;
    rc_channels :=
      RCChan.load_param (get_param (int_params ps)) (get_param (num_params ps))
        <$> rc_channels cfg |} in
  rc_modes ← RCMode.load_param (rc_modes_yaml ps);
  Ok (cfg, rc_modes, replicate n_channels (PyInt 0)).
End Setup.
End rc_override_control.

(** ** Attitude setpoint control type *)

Module attitude_setpoint_control.
Section Defs.
Context {F : Type} `{Float F}.
(** [tf.transformations.quaternion_from_euler] *)
Variable quaternion_from_euler : pynum F -> pynum F -> pynum F -> Quaternion F.
Variable cfg : config F.
Variable reverse_throttle : bool.
Variable e : env.

Definition thd_normalize (v : pynum F) : result (pynum F) :=
  if reverse_throttle then Ok v
  else arduino_map v (PyFloat (fopp fone)) (PyFloat fone)
                     (PyFloat fzero) (PyFloat fone).

(** The pose is built from a header only, so its position stays the
    default [Point()], all 0.0. *)
Definition joy_cb (joy : Joy F) : M F unit unit :=
  (roll <- lift (get_axis cfg joy "roll");;
   pitch <- lift (get_axis cfg joy "pitch");;
   yaw <- lift (get_axis cfg joy "yaw");;
   throttle <- lift (t ← get_axis cfg joy "throttle"; thd_normalize t);;
   arm_btn <- lift (get_buttons cfg joy "arm");;
   (if arm_btn =? 1 then arm e true
    else
      disarm_btn <- lift (get_buttons cfg joy "disarm");;
      if disarm_btn =? 1 then arm e false else ret tt);;
   let pose :=
     PoseStamped (get_rostime e)
       {| v_x := PyFloat fzero; v_y := PyFloat fzero; v_z := PyFloat fzero |}
       (quaternion_from_euler roll pitch yaw) in
   emit (EvPublish "att_pub" pose);;
   emit (EvPublish "thd_pub" (Float64 throttle)))%py.

End Defs.

Section Setup.
Context {F : Type} `{Float F}.

(** Start-up: the loaded tables and the [reverse_throttle] flag, read
    under the topic name [key] with default [False]. *)
Definition setup (ps : param_server F) (key : string) : config F * bool :=
  (load_maps ps initial_config, get_param (bool_params ps) key false).
End Setup.
End attitude_setpoint_control.

(** ** Velocity setpoint control type *)

Module velocity_setpoint_control.
Section Defs.
Context {F : Type} `{Float F}.
Variable cfg : config F.
Variable e : env.

(** [Vector3(z=yaw)] leaves [x] and [y] at their default 0.0. *)
Definition joy_cb (joy : Joy F) : M F unit unit :=
  (roll <- lift (get_axis cfg joy "roll");;
   pitch <- lift (get_axis cfg joy "pitch");;
   yaw <- lift (get_axis cfg joy "yaw");;
   throttle <- lift (get_axis cfg joy "throttle");;
   let twist :=
     TwistStamped (get_rostime e)
       {| v_x := roll; v_y := pitch; v_z := throttle |}
       {| v_x := PyFloat fzero; v_y := PyFloat fzero; v_z := yaw |} in
   emit (EvPublish "vel_pub" twist))%py.

End Defs.

Section Setup.
Context {F : Type} `{Float F}.
Definition setup (ps : param_server F) : config F :=
  load_maps ps initial_config.
End Setup.
End velocity_setpoint_control.

(** ** Position setpoint control type *)

Module position_setpoint_control.
Section Defs.
Context {F : Type} `{Float F}.
Variable quaternion_from_euler : pynum F -> pynum F -> pynum F -> Quaternion F.
Variable cfg : config F.
Variable e : env.

(** The module globals [px, py, pz]. *)
Record integrator := { px : pynum F; py : pynum F; pz : pynum F }.

(** [px, py, pz = 0.0, 0.0, 0.0] *)
Definition initial : integrator :=
  {| px := PyFloat fzero; py := PyFloat fzero; pz := PyFloat fzero |}.

(** The three augmented assignments run one after the other on the
    globals. *)
Definition joy_cb (joy : Joy F) : M F integrator unit :=
  (roll <- lift (get_axis cfg joy "roll");;
   pitch <- lift (get_axis cfg joy "pitch");;
   yaw <- lift (get_axis cfg joy "yaw");;
   throttle <- lift (get_axis cfg joy "throttle");;
   g <- get;;
   x <- lift (py_sub (px g) pitch);;
   put {| px := x; py := py g; pz := pz g |};;
   g <- get;;
   y <- lift (py_add (py g) roll);;
   put {| px := px g; py := y; pz := pz g |};;
   g <- get;;
   z <- lift (py_add (pz g) throttle);;
   put {| px := px g; py := py g; pz := z |};;
   g <- get;;
   let pose :=
     PoseStamped (get_rostime e)
       {| v_x := px g; v_y := py g; v_z := pz g |}
       (quaternion_from_euler (PyInt 0) (PyInt 0) yaw) in
   emit (EvPublish "pos_pub" pose))%py.

End Defs.

Section Setup.
Context {F : Type} `{Float F}.
Definition setup (ps : param_server F) : config F :=
  load_maps ps initial_config.
End Setup.
End position_setpoint_control.

(** * Vocabulary of the properties *)

(** The four axis values a sample yields under a configuration. *)
Definition axes_are {F} `{Float F} (cfg : config F) (joy : Joy F)
    (roll pitch yaw throttle : pynum F) : Prop :=
  get_axis cfg joy "roll" = Ok roll /\
  get_axis cfg joy "pitch" = Ok pitch /\
  get_axis cfg joy "yaw" = Ok yaw /\
  get_axis cfg joy "throttle" = Ok throttle.

(** A computation is [quiet] for a relation on states when it emits
    nothing and takes every state to a related one, however it ends. *)
Definition quiet {F S A} (R : S -> S -> Prop) (m : M F S A) : Prop :=
  forall s, R s (m s).1.2 /\ (m s).2 = [].

(** The frame keeps its number of channels. *)
Definition same_length {F} (rc rc' : list (pynum F)) : Prop :=
  length rc' = length rc.

(** Slot [k] of a frame of [len] channels holds the same value in both
    frames (and the frame keeps its length). *)
Definition same_slot {F} (k len : nat) (rc rc' : list (pynum F)) : Prop :=
  length rc = len -> length rc' = len /\ rc' !! k = rc !! k.

(** A callback that ends normally has published the frame it leaves
    behind, once, and nothing else. *)
Definition publishes_frame {F A} (R : list (pynum F) -> list (pynum F) -> Prop)
    (m : M F (list (pynum F)) A) : Prop :=
  forall rc,
    R rc (m rc).1.2 /\
    (forall a, (m rc).1.1 = Ok a ->
               (m rc).2 = [EvPublish "override_pub" (OverrideRCIn (m rc).1.2)]).

(** Slots the four calibrations of a sample write to, in a frame of [len]
    channels. *)
Definition calibrated_slots {F} (cfg : config F) (len : nat) : list nat :=
  omap (fun n => ch ← rc_channels cfg !! n; py_index len (RCChan.chan ch))
       ["roll"; "pitch"; "yaw"; "throttle"].

(** Slots the overlays that fire on [joy] write to. *)
Definition overlay_slots {F} (rc_modes : list (RCMode.t F)) (joy : Joy F)
    (len : nat) : list nat :=
  omap (fun m => match RCMode.is_toggled m joy with
                 | Ok true => py_index len (RCMode.rc_channel m)
                 | _ => None
                 end) rc_modes.

(** * Sample inputs

    Concrete configurations and samples on which the statements below are
    exercised.  Axes are laid out as on the default gamepad: yaw is axis 0,
    throttle axis 1, roll axis 3 and pitch axis 4. *)

(** A parameter server with nothing set but an empty overlay dictionary. *)
Definition no_params : param_server float :=
  {| int_params := ∅; num_params := ∅; bool_params := ∅;
     rc_modes_yaml := Some [] |}.

(** The clock reads 42 and the arming service answers "not successful". *)
Definition quiet_env : env :=
  {| get_rostime := 42; command_arming_reply := fun _ => ArmingReturns false |}.

(** A stand-in for [quaternion_from_euler]: the identity rotation. *)
Definition level_quaternion (ai aj ak : pynum float) : Quaternion float :=
  (0, 0, 0, 1)%float.

Definition level_quaternion_Q (ai aj ak : pynum Q) : Quaternion Q :=
  (0, 0, 0, 1)%Q.

Definition sample_binary64 : Joy float :=
  {| axes := [0.5; 0.25; 0; -1; 1]%float; buttons := [0; 0; 0; 0; 0] |}.

(** A device with two axes and no buttons. *)
Definition short_sample : Joy float :=
  {| axes := [0; 0]%float; buttons := [] |}.

(** Sticks centred, arm and disarm held together. *)
Definition both_pressed : Joy float :=
  {| axes := [0; 0; 0; 0; 0]%float; buttons := [1; 1; 0; 0; 0] |}.

(** Pitch fully forward, roll and throttle centred. *)
Definition pitch_forward (yaw : float) : Joy float :=
  {| axes := [yaw; 0; 0; 0; 1]%float; buttons := [0; 0; 0; 0; 0] |}.

Definition pitch_forward_Q (yaw : Q) : Joy Q :=
  {| axes := [yaw; 0; 0; 0; 1]%Q; buttons := [0; 0; 0; 0; 0] |}.

(** Throttle stick up, button 0 in state [b]. *)
Definition sample_button0 (b : Z) : Joy float :=
  {| axes := [0; 1; 0; 0; 0]%float; buttons := [b; 0; 0; 0; 0] |}.

(** The overlay of the specification's example: button 0 held forces
    channel 2 to 1500. *)
Definition mode_switch : RCMode.t float :=
  {| RCMode.name := "manual"; RCMode.joy_flags := [(0, 1)];
     RCMode.rc_channel := 2; RCMode.rc_value := PyInt 1500 |}.

(** An overlay on a channel no calibration writes. *)
Definition aux_switch : RCMode.t float :=
  {| RCMode.name := "aux"; RCMode.joy_flags := [(0, 1)];
     RCMode.rc_channel := 5; RCMode.rc_value := PyInt 1900 |}.

(** [OverrideRCIn()] with eight channels. *)
Definition idle_frame : list (pynum float) := replicate 8 (PyInt 0).

(** * Vocabulary and sample inputs of the further properties *)

(** A callback on the frame publishes the frame it leaves when it ends
    normally and nothing when it raises; either way the frame it leaves is
    related to the one it found. *)
Definition frame_callback {F A} (R : list (pynum F) -> list (pynum F) -> Prop)
    (m : M F (list (pynum F)) A) : Prop :=
  forall rc,
    R rc (m rc).1.2 /\
    (m rc).2 = match (m rc).1.1 with
               | Ok _ => [EvPublish "override_pub" (OverrideRCIn (m rc).1.2)]
               | Raise _ => []
               end.

(** The state a callback leaves after the samples of the subscription have
    been handed to it one after the other: what one call leaves (module
    globals, the frame object) is what the next call finds. *)
Fixpoint deliver {F S} (cb : Joy F -> M F S unit) (samples : list (Joy F))
    (s : S) : S :=
  match samples with
  | [] => s
  | joy :: rest => deliver cb rest (cb joy s).1.2
  end.

(** Sum of the deflections a list of samples carries: roll, pitch,
    throttle. *)
Fixpoint total (ds : list (Q * Q * Q)) : Q * Q * Q :=
  match ds with
  | [] => (0, 0, 0)%Q
  | (r, p, t) :: rest =>
      let '(sr, sp, st) := total rest in ((r + sr)%Q, (p + sp)%Q, (t + st)%Q)
  end.

(** The field of an overlay entry whose subscript fails first, if one
    does: the constructor call reads [joy_flags], [rc_channel] and
    [rc_value] in this order. *)
Definition first_missing {F} (d : RCMode.data F) : option string :=
  match RCMode.data_joy_flags d, RCMode.data_rc_channel d,
        RCMode.data_rc_value d with
  | None, _, _ => Some "joy_flags"
  | Some _, None, _ => Some "rc_channel"
  | Some _, Some _, None => Some "rc_value"
  | Some _, Some _, Some _ => None
  end.

(** The overlay [m] carries the name and the three fields of the
    dictionary item. *)
Definition built_from {F} (item : string * RCMode.data F) (m : RCMode.t F)
    : Prop :=
  RCMode.name m = item.1 /\
  RCMode.data_joy_flags item.2 = Some (RCMode.joy_flags m) /\
  RCMode.data_rc_channel item.2 = Some (RCMode.rc_channel m) /\
  RCMode.data_rc_value item.2 = Some (RCMode.rc_value m).

(** A parameter server whose second overlay entry has no [rc_channel]. *)
Definition broken_overlay_params : param_server float :=
  {| int_params := ∅; num_params := ∅; bool_params := ∅;
     rc_modes_yaml :=
       Some [("manual",
              {| RCMode.data_joy_flags := Some [(0, 1)];
                 RCMode.data_rc_channel := Some 2;
                 RCMode.data_rc_value := Some (PyInt 1500) |});
             ("broken",
              {| RCMode.data_joy_flags := Some [(1, 1)];
                 RCMode.data_rc_channel := None;
                 RCMode.data_rc_value := Some (PyInt 1900) |})] |}.

(** A parameter server on which [~rc_modes/] is not set. *)
Definition bare_params : param_server float :=
  {| int_params := ∅; num_params := ∅; bool_params := ∅;
     rc_modes_yaml := None |}.

(** Two parameter stores that differ on a name no table has. *)
Definition yaw_on_axis2 : gmap string Z := {[ "~axes_map/yaw" := 2 ]}.
Definition yaw_on_axis2_and_more : gmap string Z :=
  {[ "~axes_map/yaw" := 2; "~axes_map/flaps" := 5 ]}.

(** A roll channel with its pulse bounds swapped. *)
Definition reversed_roll : RCChan.t Q :=
  {| RCChan.name := "roll"; RCChan.chan := 0;
     RCChan.min := PyInt 2000; RCChan.max := PyInt 1000;
     RCChan.min_pos := (-1)%Q |}.

(** Overlays on the last channel, counted from the end, and on a channel
    the frame does not have. *)
Definition last_channel_switch : RCMode.t float :=
  {| RCMode.name := "last"; RCMode.joy_flags := [(0, 1)];
     RCMode.rc_channel := -1; RCMode.rc_value := PyInt 1100 |}.
Definition ninth_channel_switch : RCMode.t float :=
  {| RCMode.name := "ninth"; RCMode.joy_flags := [(0, 1)];
     RCMode.rc_channel := 8; RCMode.rc_value := PyInt 1100 |}.

Definition idle_frame_Q : list (pynum Q) := replicate 8 (PyInt 0).

(** The service raises. *)
Definition failing_env : env :=
  {| get_rostime := 42; command_arming_reply := fun _ => ArmingRaises |}.

(** * Properties *)

(** ** Python sequences *)

Lemma py_index_lt (len : nat) (i : Z) (k : nat) :
  py_index len i = Some k -> (k < len)%nat.
Proof.
  unfold py_index. repeat case_match; intros [= <-]; lia.
Qed.

Lemma py_index_in_range (len : nat) (i : Z) :
  is_Some (py_index len i) <-> - Z.of_nat len <= i < Z.of_nat len.
Proof.
  unfold py_index.
  destruct (Z.leb_spec 0 i), (Z.ltb_spec i (Z.of_nat len)),
    (Z.leb_spec (- Z.of_nat len) i);
    split; intros Hx; try lia; try (eexists; reflexivity);
    destruct Hx as [? [=]].
Qed.

Lemma py_getitem_IndexError {A} (l : list A) (i : Z) :
  py_getitem l i = Raise IndexError <->
  ~ (- Z.of_nat (length l) <= i < Z.of_nat (length l)).
Proof.
  rewrite <- py_index_in_range. unfold py_getitem.
  destruct (py_index (length l) i) as [k|] eqn:Hk.
  - destruct (l !! k) eqn:Hl.
    + split; [discriminate|]. intros []. eauto.
    + apply py_index_lt in Hk. apply lookup_ge_None in Hl. lia.
  - split; [|reflexivity]. intros _ [? [=]].
Qed.

(** ** The callback monad *)

Section MonadFacts.
Context {F S : Type}.

Lemma bind_Ok_inv {A B} (m : M F S A) (f : A -> M F S B) s b s' t :
  bind m f s = (Ok b, s', t) ->
  exists a s1 t1 t2,
    m s = (Ok a, s1, t1) /\ f a s1 = (Ok b, s', t2) /\ t = t1 ++ t2.
Proof.
  unfold bind. destruct (m s) as [[[a|ex] s1] t1]; [|discriminate].
  destruct (f a s1) as [[r s2] t2] eqn:Hf. intros [= -> -> <-].
  exists a, s1, t1, t2. repeat split. exact Hf.
Qed.

Lemma lift_Ok_inv {A} (r : result A) (s : S) a s' (t : list (event F)) :
  lift r s = (Ok a, s', t) -> r = Ok a /\ s' = s /\ t = [].
Proof. unfold lift. intros [= -> -> <-]. repeat split. Qed.

Context (R : S -> S -> Prop) `{!Reflexive R} `{!Transitive R}.

Lemma quiet_ret {A} (a : A) : quiet R (ret a : M F S A).
Proof. intros s. split; [reflexivity|reflexivity]. Qed.

Lemma quiet_lift {A} (r : result A) : quiet R (lift r : M F S A).
Proof. intros s. split; reflexivity. Qed.

Lemma quiet_get : quiet R (get : M F S S).
Proof. intros s. split; reflexivity. Qed.

Lemma quiet_bind {A B} (m : M F S A) (f : A -> M F S B) :
  quiet R m -> (forall a, quiet R (f a)) -> quiet R (bind m f).
Proof.
  intros Hm Hf s. specialize (Hm s). unfold bind.
  destruct (m s) as [[[a|ex] s1] t1]; cbn in *; [|exact Hm].
  specialize (Hf a s1). destruct (f a s1) as [[r s2] t2]; cbn in *.
  destruct Hm as [Hm ->], Hf as [Hf ->]. split; [|reflexivity].
  by transitivity s1.
Qed.

Lemma quiet_for_each {A} (l : list A) (body : A -> M F S unit) :
  (forall x, x ∈ l -> quiet R (body x)) -> quiet R (for_each l body).
Proof.
  induction l as [|x l IH]; intros Hbody; cbn [for_each].
  - apply quiet_ret.
  - apply quiet_bind.
    + apply Hbody. left.
    + intros _. apply IH. intros y Hy. apply Hbody. by right.
Qed.

Lemma for_each_app {A} (l1 l2 : list A) (body : A -> M F S unit) (s : S) :
  for_each (l1 ++ l2) body s
  = bind (for_each l1 body) (fun _ => for_each l2 body) s.
Proof.
  revert s. induction l1 as [|x l1 IH]; intros s; cbn [for_each app].
  - unfold bind, ret. destruct (for_each l2 body s) as [[r s'] t]. reflexivity.
  - unfold bind. destruct (body x s) as [[[[]|ex] s1] t1]; [|reflexivity].
    rewrite IH. unfold bind.
    destruct (for_each l1 body s1) as [[[[]|ex] s2] t2]; [|reflexivity].
    destruct (for_each l2 body s2) as [[r s3] t3].
    by rewrite app_assoc.
Qed.
End MonadFacts.

(** ** The linear range mapping *)

Section ArduinoMapFacts.
Context {F : Type} `{Float F}.

(** On floats with a non-zero input span the mapping is the formula of
    the source, evaluated left to right. *)
Lemma arduino_map_floats (x inmin inmax outmin outmax : F) :
  fis_zero (fsub inmax inmin) = false ->
  arduino_map (PyFloat x) (PyFloat inmin) (PyFloat inmax)
              (PyFloat outmin) (PyFloat outmax)
  = Ok (PyFloat (fadd (fdiv (fmul (fsub x inmin) (fsub outmax outmin))
                            (fsub inmax inmin)) outmin)).
Proof.
  intros Hspan. unfold arduino_map, py_sub, py_mul, py_add, py_div, py_arith.
  cbn. rewrite Hspan. reflexivity.
Qed.
End ArduinoMapFacts.

Lemma Q_span_nonzero (lo hi : Q) :
  (lo < hi)%Q -> fis_zero (fsub hi lo) = false.
Proof.
  intros Hlt. cbn. destruct (Qeq_bool (hi - lo) 0) eqn:E; [|reflexivity].
  apply Qeq_bool_iff in E. lra.
Qed.

Lemma inject_Z_sub (a b : Z) : (inject_Z (a - b) == inject_Z a - inject_Z b)%Q.
Proof.
  unfold Z.sub, Qminus. rewrite inject_Z_plus, inject_Z_opp. reflexivity.
Qed.

(** [calc_us] over the rationals: the source formula on the values of the
    pulse bounds, whether they are stored as integers or as floats. *)
Lemma calc_us_Q (ch : RCChan.t Q) (pos : pynum Q) :
  (RCChan.min_pos ch < 1)%Q ->
  exists us,
    RCChan.calc_us ch pos = Ok (PyFloat us) /\
    (us == (num_val pos - RCChan.min_pos ch)
           * (num_val (RCChan.max ch) - num_val (RCChan.min ch))
           / (1 - RCChan.min_pos ch)
           + num_val (RCChan.min ch))%Q.
Proof.
  intros Hpos. apply Q_span_nonzero in Hpos. cbn in Hpos.
  unfold RCChan.calc_us, arduino_map, py_sub, py_mul, py_add, py_div, py_arith.
  destruct ch as [nm c lo hi mp]; cbn [RCChan.min RCChan.max RCChan.min_pos] in *.
  destruct pos as [p|p], lo as [lo|lo], hi as [hi|hi]; cbn; rewrite Hpos;
    eexists; (split; [reflexivity|]); cbn [num_val];
    rewrite ?inject_Z_sub; reflexivity.
Qed.

(** C7: over the rationals, mapping [x] from the input range to the
    output range and back with the ranges swapped gives [x] again, for
    every [x] and all ranges with [in_min < in_max] and
    [out_min < out_max]. *)
Theorem arduino_map_roundtrip (x in_min in_max out_min out_max : Q) :
  (in_min < in_max)%Q -> (out_min < out_max)%Q ->
  exists y x',
    arduino_map (PyFloat x) (PyFloat in_min) (PyFloat in_max)
                (PyFloat out_min) (PyFloat out_max) = Ok (PyFloat y) /\
    arduino_map (PyFloat y) (PyFloat out_min) (PyFloat out_max)
                (PyFloat in_min) (PyFloat in_max) = Ok (PyFloat x') /\
    (x' == x)%Q.
Proof.
  intros Hin Hout.
  do 2 eexists. split; [|split].
  - apply arduino_map_floats, Q_span_nonzero, Hin.
  - apply arduino_map_floats, Q_span_nonzero, Hout.
  - cbn. field. split; lra.
Qed.

Lemma arduino_map_roundtrip_witness :
  exists y x',
    arduino_map (PyFloat (1 # 3)%Q) (PyFloat (-1)%Q) (PyFloat 1%Q)
                (PyFloat 1000%Q) (PyFloat 2000%Q) = Ok (PyFloat y) /\
    arduino_map (PyFloat y) (PyFloat 1000%Q) (PyFloat 2000%Q)
                (PyFloat (-1)%Q) (PyFloat 1%Q) = Ok (PyFloat x') /\
    (x' == 1 # 3)%Q.
Proof. apply arduino_map_roundtrip; reflexivity. Defined.

(** In binary64 the round trip is only approximate: 0.1 mapped from
    [-1, 1] to [0, 1] and back comes out within 2^-50 of 0.1, not equal to
    it. *)
Example binary64_roundtrip_is_approximate :
  let x := 0x1.999999999999ap-4%float in
  exists y x',
    arduino_map (PyFloat x) (PyFloat (-1)%float) (PyFloat 1%float)
                (PyFloat 0%float) (PyFloat 1%float) = Ok (PyFloat y) /\
    arduino_map (PyFloat y) (PyFloat 0%float) (PyFloat 1%float)
                (PyFloat (-1)%float) (PyFloat 1%float) = Ok (PyFloat x') /\
    PrimFloat.eqb x' x = false /\
    PrimFloat.ltb (PrimFloat.abs (x' - x)) 0x1p-50%float = true.
Proof. do 2 eexists. repeat split. Qed.

(** C7 does not hold as stated in floating point.  In binary64, with
    [in_min < in_max] and [out_min < out_max]: 0.0 mapped from [-1, 1] to
    [1e16, 1e16 + 2] is rounded to 1e16 and comes back as -1.0; and 0.5
    mapped from [-2^1023, 2^1023], whose width overflows, to [0, 1] comes
    back as a NaN. *)
Lemma binary64_roundtrip_can_miss :
  (PrimFloat.ltb (-1) 1 = true /\
   PrimFloat.ltb 10000000000000000 10000000000000002 = true /\
   arduino_map (PyFloat 0) (PyFloat (-1)) (PyFloat 1)
               (PyFloat 10000000000000000) (PyFloat 10000000000000002)
     = Ok (PyFloat 10000000000000000) /\
   arduino_map (PyFloat 10000000000000000)
               (PyFloat 10000000000000000) (PyFloat 10000000000000002)
               (PyFloat (-1)) (PyFloat 1)
     = Ok (PyFloat (-1)))%float /\
  (PrimFloat.ltb (-0x1p1023) 0x1p1023 = true /\
   PrimFloat.ltb 0 1 = true /\
   exists y x',
     arduino_map (PyFloat 0.5) (PyFloat (-0x1p1023)) (PyFloat 0x1p1023)
                 (PyFloat 0) (PyFloat 1) = Ok (PyFloat y) /\
     arduino_map (PyFloat y) (PyFloat 0) (PyFloat 1)
                 (PyFloat (-0x1p1023)) (PyFloat 0x1p1023) = Ok (PyFloat x') /\
     PrimFloat.is_nan x' = true)%float.
Proof.
  split.
  - repeat split.
  - split; [reflexivity|]. split; [reflexivity|].
    do 2 eexists. repeat split.
Qed.

(** ** Throttle normalisation *)

(** C6: with [reverse_throttle] set the throttle passes through unchanged;
    without it a throttle of -1.0 becomes 0.0, 0.0 becomes 0.5 and 1.0 stays
    1.0 in binary64, and over the rationals every throttle [v] becomes
    [(v + 1) / 2]. *)
Theorem thd_normalize_spec :
  (forall (F : Type) (HF : Float F) (v : pynum F),
      attitude_setpoint_control.thd_normalize true v = Ok v) /\
  attitude_setpoint_control.thd_normalize false (PyFloat (-1)%float)
    = Ok (PyFloat 0%float) /\
  attitude_setpoint_control.thd_normalize false (PyFloat 0%float)
    = Ok (PyFloat 0.5%float) /\
  attitude_setpoint_control.thd_normalize false (PyFloat 1%float)
    = Ok (PyFloat 1%float) /\
  (forall v : Q, exists t,
      attitude_setpoint_control.thd_normalize false (PyFloat v)
        = Ok (PyFloat t) /\
      (t == (v + 1) / 2)%Q).
Proof.
  do 4 (split; [reflexivity|]).
  intros v. eexists. split.
  - apply arduino_map_floats. reflexivity.
  - cbn. field.
Qed.

(** ** Channel calibration *)



(** The end points of the default roll and throttle channels in
    binary64. *)
Example calc_us_defaults_binary64 :
  RCChan.calc_us (RCChan.init "roll" 0 (-1)%float) (PyFloat 1%float)
    = Ok (PyFloat 2000%float) /\
  RCChan.calc_us (RCChan.init "roll" 0 (-1)%float) (PyFloat (-1)%float)
    = Ok (PyFloat 1000%float) /\
  RCChan.calc_us (RCChan.init "throttle" 2 0%float) (PyFloat 1%float)
    = Ok (PyFloat 2000%float) /\
  RCChan.calc_us (RCChan.init "throttle" 2 0%float) (PyFloat 0%float)
    = Ok (PyFloat 1000%float).
Proof. repeat split. Qed.

(** ** Configuration loading and index errors *)

Section Loading.
Context {F : Type} `{Float F}.

(** [load_map] keeps the keys and takes each value from the parameter
    server when it is set there. *)
Lemma load_map_lookup {V} (store m : gmap string V) (n k : string) :
  load_map store m n !! k = (fun v => get_param store (n +:+ k) v) <$> m !! k.
Proof.
  unfold load_map. rewrite map_lookup_imap.
  destruct (m !! k); reflexivity.
Qed.

(** The only [IndexError] of [get_axis] is the one of [j.axes[...]]. *)
Lemma get_axis_IndexError (cfg : config F) (joy : Joy F) (n : string) (i : Z) :
  axes_map cfg !! n = Some i ->
  get_axis cfg joy n = Raise IndexError <->
  py_getitem (axes joy) i = Raise IndexError.
Proof.
  intros Hi. unfold get_axis, py_dict_get. rewrite Hi. cbn.
  destruct (py_getitem (axes joy) i) as [a|ex]; cbn.
  - split; [|discriminate].
    destruct (axes_scale cfg !! n) as [s|]; cbn; [|discriminate].
    unfold py_mul, py_arith. destruct s as [z|s]; cbn; [|discriminate].
    destruct (fof_Z z); discriminate.
  - split; intros [= ->]; reflexivity.
Qed.

Lemma get_buttons_lookup (cfg : config F) (joy : Joy F) (n : string) (i : Z) :
  button_map cfg !! n = Some i ->
  get_buttons cfg joy n = py_getitem (buttons joy) i.
Proof.
  intros Hi. unfold get_buttons, py_dict_get. rewrite Hi. reflexivity.
Qed.

(** C2, as the code has it: loading stores whatever index the parameter
    server holds, and [get_axis] / [get_buttons] raise [IndexError] on a
    sample exactly when that index lies outside [-len, len) for the
    sample's array. *)
Theorem index_errors_are_per_sample (ps : param_server F) (cfg0 : config F)
    (joy : Joy F) (axis button : string) (i0 k0 : Z) :
  axes_map cfg0 !! axis = Some i0 ->
  button_map cfg0 !! button = Some k0 ->
  let cfg := load_maps ps cfg0 in
  let i := get_param (int_params ps) ("~axes_map/" +:+ axis) i0 in
  let k := get_param (int_params ps) ("~button_map/" +:+ button) k0 in
  let n_axes := Z.of_nat (length (axes joy)) in
  let n_buttons := Z.of_nat (length (buttons joy)) in
  axes_map cfg !! axis = Some i /\
  button_map cfg !! button = Some k /\
  (get_axis cfg joy axis = Raise IndexError <-> ~ (- n_axes <= i < n_axes)) /\
  (get_buttons cfg joy button = Raise IndexError <->
   ~ (- n_buttons <= k < n_buttons)).
Proof.
  intros Hi Hk cfg i k n_axes n_buttons.
  assert (Hi' : axes_map cfg !! axis = Some i).
  { subst cfg i. cbn. rewrite load_map_lookup, Hi. reflexivity. }
  assert (Hk' : button_map cfg !! button = Some k).
  { subst cfg k. cbn. rewrite load_map_lookup, Hk. reflexivity. }
  split; [exact Hi'|]. split; [exact Hk'|]. split.
  - rewrite (get_axis_IndexError _ _ _ _ Hi'). apply py_getitem_IndexError.
  - rewrite (get_buttons_lookup _ _ _ _ Hk'). apply py_getitem_IndexError.
Qed.
End Loading.

(** C2 does not hold as stated: with nothing set on the parameter
    server, start-up succeeds, and a sample from a device with two axes and
    no buttons raises [IndexError] in [get_axis], in [get_buttons] and in
    the callback. *)
Lemma index_error_survives_loading :
  exists cfg rc,
    rc_override_control.setup no_params 8 = Ok (cfg, [], rc) /\
    get_axis cfg short_sample "roll" = Raise IndexError /\
    get_buttons cfg short_sample "arm" = Raise IndexError /\
    rc_override_control.joy_cb cfg [] short_sample rc
      = (Raise IndexError, rc, []).
Proof.
  do 2 eexists. split; [reflexivity|]. repeat split; vm_compute; reflexivity.
Qed.

Lemma index_errors_are_per_sample_witness :
  let cfg := load_maps no_params initial_config in
  axes_map cfg !! "roll" = Some 3 /\
  button_map cfg !! "arm" = Some 0 /\
  (get_axis cfg short_sample "roll" = Raise IndexError <-> ~ (- 2 <= 3 < 2)) /\
  (get_buttons cfg short_sample "arm" = Raise IndexError <-> ~ (- 0 <= 0 < 0)).
Proof.
  refine (index_errors_are_per_sample no_params initial_config short_sample
            "roll" "arm" 3 0 _ _); reflexivity.
Defined.

(** ** Velocity setpoints *)

Section Velocity.
Context {F : Type} `{Float F}.
Import velocity_setpoint_control.

(** C9: in velocity-setpoint mode a sample whose four axes can be read
    makes the callback publish exactly one twist: linear velocity
    (roll, pitch, throttle), the throttle as [get_axis] returned it, and
    angular velocity (0.0, 0.0, yaw). *)
Theorem velocity_joy_cb_twist (cfg : config F) (e : env) (joy : Joy F)
    (roll pitch yaw throttle : pynum F) :
  get_axis cfg joy "roll" = Ok roll ->
  get_axis cfg joy "pitch" = Ok pitch ->
  get_axis cfg joy "yaw" = Ok yaw ->
  get_axis cfg joy "throttle" = Ok throttle ->
  joy_cb cfg e joy tt =
    (Ok tt, tt,
     [EvPublish "vel_pub"
        (TwistStamped (get_rostime e)
           {| v_x := roll; v_y := pitch; v_z := throttle |}
           {| v_x := PyFloat fzero; v_y := PyFloat fzero; v_z := yaw |})]).
Proof.
  intros Hr Hp Hy Ht. unfold joy_cb, bind, lift, emit.
  rewrite Hr, Hp, Hy, Ht. reflexivity.
Qed.

(** A sample the callback cannot read publishes nothing. *)
Lemma velocity_joy_cb_raises_silently (cfg : config F) (e : env) (joy : Joy F)
    (ex : exn) :
  (joy_cb cfg e joy tt).1.1 = Raise ex -> (joy_cb cfg e joy tt).2 = [].
Proof.
  unfold joy_cb, bind, lift, emit.
  repeat (destruct (get_axis cfg joy _); [|reflexivity]).
  discriminate.
Qed.
End Velocity.

Lemma velocity_joy_cb_twist_witness :
  velocity_setpoint_control.joy_cb initial_config quiet_env sample_binary64 tt =
    (Ok tt, tt,
     [EvPublish "vel_pub"
        (TwistStamped 42
           {| v_x := PyFloat (-1)%float; v_y := PyFloat 1%float;
              v_z := PyFloat 0.25%float |}
           {| v_x := PyFloat 0%float; v_y := PyFloat 0%float;
              v_z := PyFloat 0.5%float |})]).
Proof.
  refine (velocity_joy_cb_twist initial_config quiet_env sample_binary64
            (PyFloat (-1)%float) (PyFloat 1%float)
            (PyFloat 0.5%float) (PyFloat 0.25%float) _ _ _ _);
    reflexivity.
Defined.

(** ** Position setpoints *)

Section Position.
Context {F : Type} `{Float F}.
Import position_setpoint_control.
Variable quaternion_from_euler : pynum F -> pynum F -> pynum F -> Quaternion F.

(** One sample: the integrator moves by the deflection and the pose carries
    the new position with a yaw-only orientation. *)
Lemma position_joy_cb_step (cfg : config F) (e : env) (joy : Joy F)
    (x y z roll pitch throttle : F) (yaw : pynum F) :
  get_axis cfg joy "roll" = Ok (PyFloat roll) ->
  get_axis cfg joy "pitch" = Ok (PyFloat pitch) ->
  get_axis cfg joy "yaw" = Ok yaw ->
  get_axis cfg joy "throttle" = Ok (PyFloat throttle) ->
  let g' := {| px := PyFloat (fsub x pitch);
               py := PyFloat (fadd y roll);
               pz := PyFloat (fadd z throttle) |} in
  joy_cb quaternion_from_euler cfg e joy
      {| px := PyFloat x; py := PyFloat y; pz := PyFloat z |} =
    (Ok tt, g',
     [EvPublish "pos_pub"
        (PoseStamped (get_rostime e)
           {| v_x := px g'; v_y := py g'; v_z := pz g' |}
           (quaternion_from_euler (PyInt 0) (PyInt 0) yaw))]).
Proof.
  intros Hr Hp Hy Ht. unfold joy_cb, bind, lift, emit, get, put.
  rewrite Hr, Hp, Hy, Ht. reflexivity.
Qed.

(** Whatever the scale parameter is, an axis value that can be read is a
    float. *)
Lemma get_axis_float (cfg : config F) (joy : Joy F) (n : string) (v : pynum F) :
  get_axis cfg joy n = Ok v -> exists f, v = PyFloat f.
Proof.
  unfold get_axis. destruct (py_dict_get (axes_map cfg) n); [|discriminate].
  cbn. destruct (py_getitem _ _); [|discriminate].
  cbn. destruct (py_dict_get (axes_scale cfg) n) as [s|]; [|discriminate].
  cbn. unfold py_mul, py_arith. destruct s as [k|s]; cbn.
  - destruct (fof_Z k); cbn; [|discriminate]. intros [= <-]. eauto.
  - intros [= <-]. eauto.
Qed.

(** Three samples in a row, each with roll 0.0, pitch 1.0, throttle 0.0. *)
Lemma position_three_samples (cfg : config F) (e1 e2 e3 : env)
    (j1 j2 j3 : Joy F) (yaw1 yaw2 yaw3 : pynum F) :
  axes_are cfg j1 (PyFloat fzero) (PyFloat fone) yaw1 (PyFloat fzero) ->
  axes_are cfg j2 (PyFloat fzero) (PyFloat fone) yaw2 (PyFloat fzero) ->
  axes_are cfg j3 (PyFloat fzero) (PyFloat fone) yaw3 (PyFloat fzero) ->
  let cb := joy_cb quaternion_from_euler cfg in
  let g1 := (cb e1 j1 initial).1.2 in
  let g2 := (cb e2 j2 g1).1.2 in
  let x := fsub (fsub (fsub fzero fone) fone) fone in
  let y := fadd (fadd (fadd fzero fzero) fzero) fzero in
  cb e3 j3 g2 =
    (Ok tt, {| px := PyFloat x; py := PyFloat y; pz := PyFloat y |},
     [EvPublish "pos_pub"
        (PoseStamped (get_rostime e3)
           {| v_x := PyFloat x; v_y := PyFloat y; v_z := PyFloat y |}
           (quaternion_from_euler (PyInt 0) (PyInt 0) yaw3))]).
Proof.
  intros (R1 & P1 & Y1 & T1) (R2 & P2 & Y2 & T2) (R3 & P3 & Y3 & T3).
  intros cb g1 g2 x y. subst cb g1 g2 x y. unfold initial.
  rewrite (position_joy_cb_step _ e1 j1 _ _ _ _ _ _ _ R1 P1 Y1 T1).
  cbn [fst snd].
  rewrite (position_joy_cb_step _ e2 j2 _ _ _ _ _ _ _ R2 P2 Y2 T2).
  cbn [fst snd].
  rewrite (position_joy_cb_step _ e3 j3 _ _ _ _ _ _ _ R3 P3 Y3 T3).
  reflexivity.
Qed.
End Position.

Section PositionIntegrator.
Import position_setpoint_control.

(** C3: one sample moves the integrator by [x -= pitch], [y += roll],
    [z += throttle] and publishes a pose with the new position and the
    orientation [quaternion_from_euler(0, 0, yaw)]; three samples in a row
    with pitch 1.0, roll 0.0 and throttle 0.0 take it from (0, 0, 0) to
    (-3, 0, 0), in binary64 and over the rationals. *)
Theorem position_integrator :
  (forall (F : Type) (HF : Float F) quaternion_from_euler (cfg : config F)
      (e : env) (joy : Joy F) (x y z roll pitch throttle : F) (yaw : pynum F),
      axes_are cfg joy (PyFloat roll) (PyFloat pitch) yaw (PyFloat throttle) ->
      let g' := {| px := PyFloat (fsub x pitch);
                   py := PyFloat (fadd y roll);
                   pz := PyFloat (fadd z throttle) |} in
      joy_cb quaternion_from_euler cfg e joy
          {| px := PyFloat x; py := PyFloat y; pz := PyFloat z |} =
        (Ok tt, g',
         [EvPublish "pos_pub"
            (PoseStamped (get_rostime e)
               {| v_x := px g'; v_y := py g'; v_z := pz g' |}
               (quaternion_from_euler (PyInt 0) (PyInt 0) yaw))])) /\
  (forall quaternion_from_euler (cfg : config float) (e1 e2 e3 : env)
      (j1 j2 j3 : Joy float) (yaw1 yaw2 yaw3 : pynum float),
      axes_are cfg j1 (PyFloat 0) (PyFloat 1) yaw1 (PyFloat 0) ->
      axes_are cfg j2 (PyFloat 0) (PyFloat 1) yaw2 (PyFloat 0) ->
      axes_are cfg j3 (PyFloat 0) (PyFloat 1) yaw3 (PyFloat 0) ->
      let cb := joy_cb quaternion_from_euler cfg in
      let g1 := (cb e1 j1 initial).1.2 in
      let g2 := (cb e2 j2 g1).1.2 in
      cb e3 j3 g2 =
        (Ok tt,
         {| px := PyFloat (-3); py := PyFloat 0; pz := PyFloat 0 |},
         [EvPublish "pos_pub"
            (PoseStamped (get_rostime e3)
               {| v_x := PyFloat (-3); v_y := PyFloat 0; v_z := PyFloat 0 |}
               (quaternion_from_euler (PyInt 0) (PyInt 0) yaw3))]))%float /\
  (forall quaternion_from_euler (cfg : config Q) (e1 e2 e3 : env)
      (j1 j2 j3 : Joy Q) (yaw1 yaw2 yaw3 : pynum Q),
      axes_are cfg j1 (PyFloat 0) (PyFloat 1) yaw1 (PyFloat 0) ->
      axes_are cfg j2 (PyFloat 0) (PyFloat 1) yaw2 (PyFloat 0) ->
      axes_are cfg j3 (PyFloat 0) (PyFloat 1) yaw3 (PyFloat 0) ->
      let cb := joy_cb quaternion_from_euler cfg in
      let g1 := (cb e1 j1 initial).1.2 in
      let g2 := (cb e2 j2 g1).1.2 in
      cb e3 j3 g2 =
        (Ok tt,
         {| px := PyFloat (-3); py := PyFloat 0; pz := PyFloat 0 |},
         [EvPublish "pos_pub"
            (PoseStamped (get_rostime e3)
               {| v_x := PyFloat (-3); v_y := PyFloat 0; v_z := PyFloat 0 |}
               (quaternion_from_euler (PyInt 0) (PyInt 0) yaw3))]))%Q.
Proof.
  split; [|split].
  - intros F HF qfe cfg e joy x y z roll pitch throttle yaw (R & P & Y & T).
    exact (position_joy_cb_step qfe cfg e joy x y z roll pitch throttle yaw
             R P Y T).
  - intros qfe cfg e1 e2 e3 j1 j2 j3 yaw1 yaw2 yaw3 A1 A2 A3.
    exact (position_three_samples qfe cfg e1 e2 e3 j1 j2 j3 yaw1 yaw2 yaw3
             A1 A2 A3).
  - intros qfe cfg e1 e2 e3 j1 j2 j3 yaw1 yaw2 yaw3 A1 A2 A3.
    exact (position_three_samples qfe cfg e1 e2 e3 j1 j2 j3 yaw1 yaw2 yaw3
             A1 A2 A3).
Qed.
End PositionIntegrator.

Lemma position_integrator_witness :
  let cb := position_setpoint_control.joy_cb level_quaternion initial_config in
  let g0 := position_setpoint_control.initial in
  let g1 := (cb quiet_env (pitch_forward 0) g0).1.2 in
  let g2 := (cb quiet_env (pitch_forward 0.5) g1).1.2 in
  let cbQ :=
    position_setpoint_control.joy_cb level_quaternion_Q initial_config in
  let q0 := position_setpoint_control.initial in
  let q1 := (cbQ quiet_env (pitch_forward_Q 0) q0).1.2 in
  let q2 := (cbQ quiet_env (pitch_forward_Q (1 # 2)) q1).1.2 in
  (cb quiet_env sample_binary64
      {| position_setpoint_control.px := PyFloat 10%float;
         position_setpoint_control.py := PyFloat 20%float;
         position_setpoint_control.pz := PyFloat 30%float |}).1.2
    = {| position_setpoint_control.px := PyFloat 9%float;
         position_setpoint_control.py := PyFloat 19%float;
         position_setpoint_control.pz := PyFloat 30.25%float |} /\
  (cb quiet_env (pitch_forward 1) g2).1.2
    = {| position_setpoint_control.px := PyFloat (-3)%float;
         position_setpoint_control.py := PyFloat 0%float;
         position_setpoint_control.pz := PyFloat 0%float |} /\
  (cbQ quiet_env (pitch_forward_Q 1) q2).1.2
    = {| position_setpoint_control.px := PyFloat (-3)%Q;
         position_setpoint_control.py := PyFloat 0%Q;
         position_setpoint_control.pz := PyFloat 0%Q |}.
Proof.
  destruct position_integrator as (Hstep & Hthree & HthreeQ).
  split; [|split].
  - rewrite (Hstep float _ level_quaternion initial_config quiet_env
               sample_binary64 10 20 30 (-1) 1 0.25 (PyFloat 0.5))%float;
      [reflexivity|repeat split].
  - rewrite (Hthree level_quaternion initial_config quiet_env quiet_env quiet_env
               (pitch_forward 0) (pitch_forward 0.5) (pitch_forward 1)
               (PyFloat 0%float) (PyFloat 0.5%float) (PyFloat 1%float));
      [reflexivity|repeat split..].
  - rewrite (HthreeQ level_quaternion_Q initial_config quiet_env quiet_env
               quiet_env
               (pitch_forward_Q 0) (pitch_forward_Q (1 # 2)) (pitch_forward_Q 1)
               (PyFloat 0%Q) (PyFloat (1 # 2)%Q) (PyFloat 1%Q));
      [reflexivity|repeat split..].
Defined.

(** ** Arming in attitude mode *)

Section Arming.
Context {F : Type} `{Float F}.

(** [arm] never returns: whatever the service answers, the request is
    sent and a [NameError] follows; neither [rospy.loginfo] is reached. *)
Lemma arm_raises {S} (e : env) (state : bool) (s : S) :
  arm e state s =
    (Raise (NameError (match command_arming_reply e state with
                       | ArmingRaises => "fault"
                       | ArmingReturns _ => "ret"
                       end)),
     s, [EvArming (F:=F) state]).
Proof.
  unfold arm, try_except, command_arming, read_name, bind, emit, raise, ret.
  destruct (command_arming_reply e state); reflexivity.
Qed.

Import attitude_setpoint_control.
Variable quaternion_from_euler : pynum F -> pynum F -> pynum F -> Quaternion F.

(** The callback up to the button check, on a sample whose axes can be
    read. *)
Lemma attitude_joy_cb_buttons (cfg : config F) (reverse : bool) (e : env)
    (joy : Joy F) (roll pitch yaw t throttle : pynum F) :
  get_axis cfg joy "roll" = Ok roll ->
  get_axis cfg joy "pitch" = Ok pitch ->
  get_axis cfg joy "yaw" = Ok yaw ->
  get_axis cfg joy "throttle" = Ok t ->
  thd_normalize reverse t = Ok throttle ->
  joy_cb quaternion_from_euler cfg reverse e joy tt =
    match get_buttons cfg joy "arm" with
    | Raise ex => (Raise ex, tt, [])
    | Ok arm_btn =>
        if arm_btn =? 1 then arm e true tt
        else
          match get_buttons cfg joy "disarm" with
          | Raise ex => (Raise ex, tt, [])
          | Ok disarm_btn =>
              if disarm_btn =? 1 then arm e false tt
              else
                (Ok tt, tt,
                 [EvPublish "att_pub"
                    (PoseStamped (get_rostime e)
                       {| v_x := PyFloat fzero; v_y := PyFloat fzero;
                          v_z := PyFloat fzero |}
                       (quaternion_from_euler roll pitch yaw));
                  EvPublish "thd_pub" (Float64 throttle)])
          end
    end.
Proof.
  intros Hr Hp Hy Ht Hn. unfold joy_cb, bind, lift, emit.
  rewrite Hr, Hp, Hy, Ht. cbn. rewrite Hn.
  destruct (get_buttons cfg joy "arm") as [a|]; [|reflexivity].
  destruct (a =? 1).
  - rewrite arm_raises. reflexivity.
  - destruct (get_buttons cfg joy "disarm") as [d|]; [|reflexivity].
    destruct (d =? 1); [|reflexivity].
    rewrite !arm_raises. reflexivity.
Qed.

(** With neither button pressed the callback publishes the attitude pose,
    its position left at the origin, and then the throttle. *)
Lemma attitude_joy_cb_setpoints (cfg : config F) (reverse : bool) (e : env)
    (joy : Joy F) (roll pitch yaw t throttle : pynum F) (arm_btn disarm_btn : Z) :
  get_axis cfg joy "roll" = Ok roll ->
  get_axis cfg joy "pitch" = Ok pitch ->
  get_axis cfg joy "yaw" = Ok yaw ->
  get_axis cfg joy "throttle" = Ok t ->
  thd_normalize reverse t = Ok throttle ->
  get_buttons cfg joy "arm" = Ok arm_btn -> arm_btn <> 1 ->
  get_buttons cfg joy "disarm" = Ok disarm_btn -> disarm_btn <> 1 ->
  joy_cb quaternion_from_euler cfg reverse e joy tt =
    (Ok tt, tt,
     [EvPublish "att_pub"
        (PoseStamped (get_rostime e)
           {| v_x := PyFloat fzero; v_y := PyFloat fzero;
              v_z := PyFloat fzero |}
           (quaternion_from_euler roll pitch yaw));
      EvPublish "thd_pub" (Float64 throttle)]).
Proof.
  intros Hr Hp Hy Ht Hn Ha Hane Hd Hdne.
  rewrite (attitude_joy_cb_buttons _ _ _ _ _ _ _ _ _ Hr Hp Hy Ht Hn), Ha, Hd.
  apply Z.eqb_neq in Hane, Hdne. by rewrite Hane, Hdne.
Qed.

(** C10: on a sample whose axes can be read, a pressed arm button sends
    the arm request and nothing else, whatever the disarm button reads; a
    disarm request is sent when the arm button is not pressed and the disarm
    button is, and only then. *)
Theorem arm_takes_precedence (cfg : config F) (reverse : bool) (e : env)
    (joy : Joy F) (roll pitch yaw t throttle : pynum F) (arm_btn : Z) :
  get_axis cfg joy "roll" = Ok roll ->
  get_axis cfg joy "pitch" = Ok pitch ->
  get_axis cfg joy "yaw" = Ok yaw ->
  get_axis cfg joy "throttle" = Ok t ->
  thd_normalize reverse t = Ok throttle ->
  get_buttons cfg joy "arm" = Ok arm_btn ->
  let events := (joy_cb quaternion_from_euler cfg reverse e joy tt).2 in
  (arm_btn = 1 -> events = [EvArming true]) /\
  (arm_btn <> 1 -> get_buttons cfg joy "disarm" = Ok 1 ->
   events = [EvArming false]) /\
  (EvArming false ∈ events ->
   arm_btn <> 1 /\ get_buttons cfg joy "disarm" = Ok 1).
Proof.
  intros Hr Hp Hy Ht Hn Ha events. subst events.
  rewrite (attitude_joy_cb_buttons _ _ _ _ _ _ _ _ _ Hr Hp Hy Ht Hn), Ha.
  destruct (Z.eqb_spec arm_btn 1) as [->|Hne].
  - rewrite arm_raises. cbn. split; [reflexivity|]. split; [congruence|].
    intros Hin. apply list_elem_of_singleton in Hin. discriminate.
  - split; [congruence|]. split.
    + intros _ Hd. rewrite Hd. cbn. rewrite arm_raises. reflexivity.
    + destruct (get_buttons cfg joy "disarm") as [d|]; cbn.
      * destruct (Z.eqb_spec d 1) as [->|Hd].
        -- intros _. split; [exact Hne|reflexivity].
        -- cbn. intros Hin. exfalso.
           repeat (apply elem_of_cons in Hin as [Hin|Hin]; [discriminate|]).
           inversion Hin.
      * intros Hin. inversion Hin.
Qed.
End Arming.

Lemma arm_takes_precedence_witness :
  let events :=
    (attitude_setpoint_control.joy_cb level_quaternion initial_config false
       quiet_env both_pressed tt).2 in
  (1 = 1 -> events = [EvArming true]) /\
  (1 <> 1 -> get_buttons initial_config both_pressed "disarm" = Ok 1 ->
   events = [EvArming false]) /\
  (EvArming false ∈ events ->
   1 <> 1 /\ get_buttons initial_config both_pressed "disarm" = Ok 1).
Proof.
  refine (arm_takes_precedence level_quaternion initial_config false quiet_env
            both_pressed (PyFloat 0%float) (PyFloat 0%float) (PyFloat 0%float)
            (PyFloat 0%float) (PyFloat 0.5%float) 1 _ _ _ _ _ _);
    reflexivity.
Defined.

(** C1, where the code stands: with the default tables, on a sample with
    the arm (or the disarm) button pressed, whether the service answers
    "not successful" or raises, the callback ends with a [NameError] right
    after the request is sent; nothing is logged and neither setpoint is
    published. *)
Theorem arm_failure_aborts_callback
    (quaternion_from_euler :
       pynum float -> pynum float -> pynum float -> Quaternion float) :
  let pressed (arm_btn disarm_btn : Z) : Joy float :=
    {| axes := [0; 0; 0; 0; 0]%float;
       buttons := [arm_btn; disarm_btn; 0; 0; 0] |} in
  let service (reply : arming_reply) : env :=
    {| get_rostime := 42; command_arming_reply := fun _ => reply |} in
  let joy_cb := attitude_setpoint_control.joy_cb quaternion_from_euler
                  initial_config false in
  joy_cb (service (ArmingReturns false)) (pressed 1 0) tt
    = (Raise (NameError "ret"), tt, [EvArming true]) /\
  joy_cb (service ArmingRaises) (pressed 1 0) tt
    = (Raise (NameError "fault"), tt, [EvArming true]) /\
  joy_cb (service (ArmingReturns false)) (pressed 0 1) tt
    = (Raise (NameError "ret"), tt, [EvArming false]) /\
  joy_cb (service ArmingRaises) (pressed 0 1) tt
    = (Raise (NameError "fault"), tt, [EvArming false]).
Proof. repeat split; reflexivity. Qed.

(** ** The RC override frame *)

(** What one callback leaves of slot [k] in a frame of [len] channels. *)
Section Frame.
Context {F : Type} `{Float F}.
Variables (k len : nat).
Import rc_override_control.

#[global] Instance same_slot_refl : Reflexive (same_slot (F:=F) k len).
Proof. intros rc Hlen. split; [exact Hlen|reflexivity]. Qed.

#[global] Instance same_slot_trans : Transitive (same_slot (F:=F) k len).
Proof.
  intros a b c Hab Hbc Hlen. destruct (Hab Hlen) as [Hb Hkb].
  destruct (Hbc Hb) as [Hc Hkc]. split; [exact Hc|congruence].
Qed.

Lemma py_setitem_same_slot (rc : list (pynum F)) (i : Z) (v : pynum F) rc' :
  py_index len i <> Some k ->
  py_setitem rc i v = Ok rc' -> same_slot k len rc rc'.
Proof.
  intros Hne Hset Hlen. unfold py_setitem in Hset. rewrite Hlen in Hset.
  destruct (py_index len i) as [j|] eqn:Hj; [|discriminate].
  injection Hset as <-. rewrite length_insert. split; [exact Hlen|].
  apply list_lookup_insert_ne. congruence.
Qed.

Lemma set_chan_quiet (cfg : config F) (n : string) (v : pynum F) :
  (forall ch, rc_channels cfg !! n = Some ch ->
              py_index len (RCChan.chan ch) <> Some k) ->
  quiet (same_slot k len) (set_chan cfg n v).
Proof.
  intros Hch rc. unfold set_chan, bind, lift, get, put, py_dict_get.
  destruct (rc_channels cfg !! n) as [ch|]; [|split; reflexivity].
  destruct (RCChan.calc_us ch v) as [us|]; [|split; reflexivity].
  destruct (py_setitem rc (RCChan.chan ch) us) as [rc'|] eqn:Hset;
    [|split; reflexivity].
  split; [|reflexivity]. cbn.
  eapply py_setitem_same_slot; [|exact Hset]. by apply Hch.
Qed.

Lemma apply_mode_quiet (m : RCMode.t F) (joy : Joy F) :
  (RCMode.is_toggled m joy = Ok true ->
   py_index len (RCMode.rc_channel m) <> Some k) ->
  quiet (same_slot k len) (RCMode.apply_mode m joy).
Proof.
  intros Hm rc. unfold RCMode.apply_mode, bind, lift, get, put, ret.
  destruct (RCMode.is_toggled m joy) as [[]|]; [|split; reflexivity..].
  destruct (py_setitem rc _ _) as [rc'|] eqn:Hset; [|split; reflexivity].
  split; [|reflexivity]. cbn.
  eapply py_setitem_same_slot; [|exact Hset]. by apply Hm.
Qed.

Lemma publishes_frame_bind {A B} (m : M F (list (pynum F)) A)
    (f : A -> M F (list (pynum F)) B) :
  quiet (same_slot k len) m ->
  (forall a, publishes_frame (same_slot k len) (f a)) ->
  publishes_frame (same_slot k len) (bind m f).
Proof.
  intros Hm Hf rc. specialize (Hm rc). unfold bind.
  destruct (m rc) as [[[a|ex] rc1] t1]; cbn in *.
  - specialize (Hf a rc1). destruct (f a rc1) as [[r rc2] t2]; cbn in *.
    destruct Hm as [Hm ->], Hf as [Hf Hpub]. split.
    + by transitivity rc1.
    + intros b Hb. cbn. eauto.
  - split; [apply Hm|]. intros ? [=].
Qed.

(** The frame left by one sample: a slot that no calibration and no firing
    overlay addresses keeps its value, and a callback that ends normally
    has published exactly that frame. *)
Lemma joy_cb_publishes_frame (cfg : config F) (rc_modes : list (RCMode.t F))
    (joy : Joy F) :
  (forall n ch, n ∈ ["roll"; "pitch"; "yaw"; "throttle"] ->
                rc_channels cfg !! n = Some ch ->
                py_index len (RCChan.chan ch) <> Some k) ->
  (forall m, m ∈ rc_modes -> RCMode.is_toggled m joy = Ok true ->
             py_index len (RCMode.rc_channel m) <> Some k) ->
  publishes_frame (same_slot k len) (joy_cb cfg rc_modes joy).
Proof.
  intros Hch Hmodes. unfold joy_cb.
  repeat (apply publishes_frame_bind; [apply quiet_lift; apply _|intros ?]).
  repeat (apply publishes_frame_bind;
          [apply set_chan_quiet; intros ch; apply Hch; set_solver|intros _]).
  apply publishes_frame_bind.
  { apply quiet_for_each; [apply _..|]. intros m Hin.
    apply apply_mode_quiet. by apply Hmodes. }
  intros _ rc. split; [reflexivity|]. intros ? _. reflexivity.
Qed.
End Frame.

(** The overlay pass. *)
Section Overlays.
Context {F : Type} `{Float F}.
Import rc_override_control.

#[global] Instance same_length_refl : Reflexive (same_length (F:=F)).
Proof. intros rc. reflexivity. Qed.

#[global] Instance same_length_trans : Transitive (same_length (F:=F)).
Proof. intros a b c Hab Hbc. unfold same_length in *. congruence. Qed.

Lemma py_setitem_length (rc : list (pynum F)) (i : Z) (v : pynum F) rc' :
  py_setitem rc i v = Ok rc' -> same_length rc rc'.
Proof.
  unfold py_setitem. destruct (py_index _ _); [|discriminate].
  intros [= <-]. apply length_insert.
Qed.

Lemma set_chan_length (cfg : config F) (n : string) (v : pynum F) :
  quiet same_length (set_chan cfg n v).
Proof.
  intros rc. unfold set_chan, bind, lift, get, put, py_dict_get.
  destruct (rc_channels cfg !! n) as [ch|]; [|split; reflexivity].
  destruct (RCChan.calc_us ch v) as [us|]; [|split; reflexivity].
  destruct (py_setitem rc (RCChan.chan ch) us) as [rc'|] eqn:Hset;
    [|split; reflexivity].
  split; [|reflexivity]. cbn. eapply py_setitem_length, Hset.
Qed.

Lemma apply_mode_length (m : RCMode.t F) (joy : Joy F) :
  quiet same_length (RCMode.apply_mode m joy).
Proof.
  intros rc. unfold RCMode.apply_mode, bind, lift, get, put, ret.
  destruct (RCMode.is_toggled m joy) as [[]|]; [|split; reflexivity..].
  destruct (py_setitem rc _ _) as [rc'|] eqn:Hset; [|split; reflexivity].
  split; [|reflexivity]. cbn. eapply py_setitem_length, Hset.
Qed.

Lemma flags_match_true (flags : list (Z * Z)) (joy : Joy F) :
  RCMode.flags_match flags joy = Ok true <->
  Forall (fun p => py_getitem (buttons joy) p.1 = Ok p.2) flags.
Proof.
  induction flags as [|[btn flag] flags IH]; cbn [RCMode.flags_match].
  - split; [constructor|reflexivity].
  - rewrite Forall_cons. cbn [fst snd].
    destruct (py_getitem (buttons joy) btn) as [b|ex]; cbn.
    + destruct (Z.eqb_spec b flag) as [->|Hne]; cbn.
      * rewrite IH. tauto.
      * split; [discriminate|]. intros [[=] _]. contradiction.
    + split; [discriminate|]. intros [[=] _].
Qed.

Lemma apply_mode_fires (m : RCMode.t F) (joy : Joy F) (rc : list (pynum F)) k :
  RCMode.is_toggled m joy = Ok true ->
  py_index (length rc) (RCMode.rc_channel m) = Some k ->
  RCMode.apply_mode m joy rc = (Ok tt, <[k := RCMode.rc_value m]> rc, []).
Proof.
  intros Hfire Hk. unfold RCMode.apply_mode, bind, lift, get, put, py_setitem.
  rewrite Hfire, Hk. reflexivity.
Qed.

Lemma apply_mode_idle (m : RCMode.t F) (joy : Joy F) (rc : list (pynum F)) :
  RCMode.is_toggled m joy <> Ok true ->
  (RCMode.apply_mode m joy rc).1.2 = rc /\ (RCMode.apply_mode m joy rc).2 = [].
Proof.
  intros Hidle. unfold RCMode.apply_mode, bind, lift, ret.
  destruct (RCMode.is_toggled m joy) as [[]|];
    [contradiction|split; reflexivity..].
Qed.

(** Among the overlays evaluated on one sample, the last one that fires on
    a slot decides its value. *)
Lemma overlays_last_wins (pre post : list (RCMode.t F)) (m : RCMode.t F)
    (joy : Joy F) (rc rc' : list (pynum F)) (t : list (event F)) (k : nat) :
  for_each (pre ++ m :: post) (fun m => RCMode.apply_mode m joy) rc
    = (Ok tt, rc', t) ->
  RCMode.is_toggled m joy = Ok true ->
  py_index (length rc) (RCMode.rc_channel m) = Some k ->
  (forall m', m' ∈ post -> RCMode.is_toggled m' joy = Ok true ->
              py_index (length rc) (RCMode.rc_channel m') <> Some k) ->
  rc' !! k = Some (RCMode.rc_value m) /\ length rc' = length rc /\ t = [].
Proof.
  intros Hrun Hfire Hk Hpost. rewrite for_each_app in Hrun.
  apply bind_Ok_inv in Hrun as ([] & rc1 & t1 & t2 & Hpre & Hrest & ->).
  assert (Hlen1 : length rc1 = length rc /\ t1 = []).
  { pose proof (quiet_for_each same_length pre
                  (fun m => RCMode.apply_mode m joy)
                  (fun m _ => apply_mode_length m joy) rc) as Hq.
    rewrite Hpre in Hq. exact Hq. }
  destruct Hlen1 as [Hlen1 ->].
  cbn [for_each] in Hrest.
  apply bind_Ok_inv in Hrest as ([] & rc2 & t3 & t4 & Hm & Hrest & ->).
  rewrite <- Hlen1 in Hk. rewrite (apply_mode_fires _ _ _ _ Hfire Hk) in Hm.
  injection Hm as <- <-.
  pose proof (quiet_for_each (same_slot k (length rc)) post
                (fun m => RCMode.apply_mode m joy)) as Hq.
  specialize (Hq (fun m' Hin =>
                    apply_mode_quiet k (length rc) m' joy (Hpost m' Hin))
                 (<[k := RCMode.rc_value m]> rc1)).
  rewrite Hrest in Hq. cbn in Hq. destruct Hq as [Hq ->].
  destruct Hq as [Hlen' Hslot]; [by rewrite length_insert|].
  split; [|split; [exact Hlen'|reflexivity]].
  rewrite Hslot. apply list_lookup_insert_eq.
  apply py_index_lt in Hk. exact Hk.
Qed.
End Overlays.

(** The whole callback. *)
Section Override.
Context {F : Type} `{Float F}.
Import rc_override_control.

Lemma not_calibrated (cfg : config F) (len k : nat) :
  k ∉ calibrated_slots cfg len ->
  forall n ch, n ∈ ["roll"; "pitch"; "yaw"; "throttle"] ->
               rc_channels cfg !! n = Some ch ->
               py_index len (RCChan.chan ch) <> Some k.
Proof.
  intros Hk n ch Hn Hch Hslot. apply Hk. unfold calibrated_slots.
  apply list_elem_of_omap. exists n. split; [exact Hn|].
  rewrite Hch. exact Hslot.
Qed.

Lemma not_overlaid (rc_modes : list (RCMode.t F)) (joy : Joy F) (len k : nat) :
  k ∉ overlay_slots rc_modes joy len ->
  forall m, m ∈ rc_modes -> RCMode.is_toggled m joy = Ok true ->
            py_index len (RCMode.rc_channel m) <> Some k.
Proof.
  intros Hk m Hm Hfire Hslot. apply Hk. unfold overlay_slots.
  apply list_elem_of_omap. exists m. split; [exact Hm|].
  rewrite Hfire. exact Hslot.
Qed.

(** A callback that ends normally ran the overlays on the calibrated frame
    and published what they left. *)
Lemma joy_cb_Ok_inv (cfg : config F) (rc_modes : list (RCMode.t F))
    (joy : Joy F) (rc rc' : list (pynum F)) (ev : list (event F)) :
  joy_cb cfg rc_modes joy rc = (Ok tt, rc', ev) ->
  exists calibrated,
    length calibrated = length rc /\
    for_each rc_modes (fun m => RCMode.apply_mode m joy) calibrated
      = (Ok tt, rc', []) /\
    ev = [EvPublish "override_pub" (OverrideRCIn rc')].
Proof.
  unfold joy_cb. intros Hrun.
  do 4 (apply bind_Ok_inv in Hrun as (? & ? & ? & ? & Hl & Hrun & ->);
        apply lift_Ok_inv in Hl as (_ & -> & ->)).
  apply bind_Ok_inv in Hrun as ([] & s1 & t1 & ? & H1 & Hrun & ->).
  apply bind_Ok_inv in Hrun as ([] & s2 & t2 & ? & H2 & Hrun & ->).
  apply bind_Ok_inv in Hrun as ([] & s3 & t3 & ? & H3 & Hrun & ->).
  apply bind_Ok_inv in Hrun as ([] & s4 & t4 & ? & H4 & Hrun & ->).
  apply bind_Ok_inv in Hrun as ([] & s5 & t5 & ? & H5 & Hrun & ->).
  lazymatch type of H1 with set_chan _ ?n ?v _ = _ =>
    pose proof (set_chan_length cfg n v rc) as Q1; rewrite H1 in Q1 end.
  lazymatch type of H2 with set_chan _ ?n ?v _ = _ =>
    pose proof (set_chan_length cfg n v s1) as Q2; rewrite H2 in Q2 end.
  lazymatch type of H3 with set_chan _ ?n ?v _ = _ =>
    pose proof (set_chan_length cfg n v s2) as Q3; rewrite H3 in Q3 end.
  lazymatch type of H4 with set_chan _ ?n ?v _ = _ =>
    pose proof (set_chan_length cfg n v s3) as Q4; rewrite H4 in Q4 end.
  pose proof (quiet_for_each same_length rc_modes
                (fun m => RCMode.apply_mode m joy)
                (fun m _ => apply_mode_length m joy) s4) as Q5.
  rewrite H5 in Q5. cbn in Q1, Q2, Q3, Q4, Q5.
  destruct Q1 as [L1 ->], Q2 as [L2 ->], Q3 as [L3 ->], Q4 as [L4 ->],
    Q5 as [L5 ->].
  unfold bind, get, emit in Hrun. injection Hrun as <- <-.
  exists s4. split; [unfold same_length in *; congruence|].
  split; [exact H5|reflexivity].
Qed.
End Override.

Section OverrideTheorems.
Context {F : Type} `{Float F}.
Import rc_override_control.

(** C4: an overlay fires exactly when every [(btn, flag)] pair matches the
    sample's buttons.  When it fires, its channel is set to its value, and
    the frame the callback publishes carries that value whatever the
    calibrations wrote, unless an overlay evaluated later fires on the same
    slot.  When it does not fire, the frame is left as it was. *)
Theorem overlay_fires_iff_all_match (m : RCMode.t F) (joy : Joy F)
    (rc : list (pynum F)) :
  (RCMode.is_toggled m joy = Ok true <->
   Forall (fun p => py_getitem (buttons joy) p.1 = Ok p.2)
          (RCMode.joy_flags m)) /\
  (RCMode.is_toggled m joy = Ok true ->
   forall k, py_index (length rc) (RCMode.rc_channel m) = Some k ->
     RCMode.apply_mode m joy rc = (Ok tt, <[k := RCMode.rc_value m]> rc, []) /\
     <[k := RCMode.rc_value m]> rc !! k = Some (RCMode.rc_value m) /\
     forall cfg pre post rc' ev,
       k ∉ overlay_slots post joy (length rc) ->
       joy_cb cfg (pre ++ m :: post) joy rc = (Ok tt, rc', ev) ->
       rc' !! k = Some (RCMode.rc_value m) /\
       ev = [EvPublish "override_pub" (OverrideRCIn rc')]) /\
  (RCMode.is_toggled m joy <> Ok true ->
   (RCMode.apply_mode m joy rc).1.2 = rc).
Proof.
  split; [apply flags_match_true|]. split.
  - intros Hfire k Hk. split; [by apply apply_mode_fires|]. split.
    + apply list_lookup_insert_eq. by apply py_index_lt in Hk.
    + intros cfg pre post rc' ev Hpost Hrun.
      apply joy_cb_Ok_inv in Hrun as (cal & Hlen & Hrun & ->).
      split; [|reflexivity]. rewrite <- Hlen in Hk, Hpost.
      eapply overlays_last_wins; [exact Hrun|exact Hfire|exact Hk|].
      by apply not_overlaid.
  - intros Hidle. by apply apply_mode_idle.
Qed.

(** C5: across two consecutive samples, a slot that neither a calibration
    nor a firing overlay writes during the second sample holds after it the
    value the first sample left; the frame keeps its length and is what the
    second callback publishes. *)
Theorem untouched_channel_persists (cfg : config F)
    (rc_modes : list (RCMode.t F)) (joy1 joy2 : Joy F)
    (rc0 : list (pynum F)) (k : nat) :
  let rc1 := (joy_cb cfg rc_modes joy1 rc0).1.2 in
  let second := joy_cb cfg rc_modes joy2 rc1 in
  k ∉ calibrated_slots cfg (length rc1) ->
  k ∉ overlay_slots rc_modes joy2 (length rc1) ->
  second.1.2 !! k = rc1 !! k /\
  length second.1.2 = length rc1 /\
  (second.1.1 = Ok tt ->
   second.2 = [EvPublish "override_pub" (OverrideRCIn second.1.2)]).
Proof.
  intros rc1 second Hcal Hover.
  destruct (joy_cb_publishes_frame k (length rc1) cfg rc_modes joy2
              (not_calibrated _ _ _ Hcal) (not_overlaid _ _ _ _ Hover) rc1)
    as [Hslot Hpub].
  destruct (Hslot eq_refl) as [Hlen Hk].
  split; [exact Hk|]. split; [exact Hlen|]. apply Hpub.
Qed.
End OverrideTheorems.

Lemma overlay_fires_iff_all_match_witness :
  RCMode.is_toggled mode_switch (sample_button0 1) = Ok true /\
  (exists rc' ev,
      rc_override_control.joy_cb initial_config [mode_switch]
        (sample_button0 1) idle_frame = (Ok tt, rc', ev) /\
      rc' !! 2%nat = Some (PyInt 1500)) /\
  (exists rc' ev,
      rc_override_control.joy_cb initial_config [mode_switch]
        (sample_button0 0) idle_frame = (Ok tt, rc', ev) /\
      rc' !! 2%nat = Some (PyFloat 2000%float)) /\
  (RCMode.apply_mode mode_switch (sample_button0 0) idle_frame).1.2
    = idle_frame.
Proof.
  destruct (overlay_fires_iff_all_match mode_switch (sample_button0 1) idle_frame)
    as (Hiff & Hfire & _).
  destruct (overlay_fires_iff_all_match mode_switch (sample_button0 0) idle_frame)
    as (_ & _ & Hidle).
  assert (Hon : RCMode.is_toggled mode_switch (sample_button0 1) = Ok true).
  { apply Hiff. repeat constructor. }
  split; [exact Hon|]. split; [|split].
  - do 2 eexists. split; [vm_compute; reflexivity|].
    destruct (Hfire Hon 2%nat eq_refl) as (_ & _ & Hcb).
    refine (proj1 (Hcb initial_config [] [] _ _ _ _)).
    + vm_compute. apply not_elem_of_nil.
    + vm_compute. reflexivity.
  - do 2 eexists. split; vm_compute; reflexivity.
  - apply Hidle. vm_compute. discriminate.
Defined.

Lemma untouched_channel_persists_witness :
  let rc1 := (rc_override_control.joy_cb initial_config [aux_switch]
                (sample_button0 1) idle_frame).1.2 in
  let second := rc_override_control.joy_cb initial_config [aux_switch]
                  (sample_button0 0) rc1 in
  rc1 !! 5%nat = Some (PyInt 1900) /\
  second.1.2 !! 5%nat = rc1 !! 5%nat /\
  length second.1.2 = length rc1 /\
  (second.1.1 = Ok tt ->
   second.2 = [EvPublish "override_pub" (OverrideRCIn second.1.2)]).
Proof.
  split; [reflexivity|].
  refine (untouched_channel_persists initial_config [aux_switch]
            (sample_button0 1) (sample_button0 0) idle_frame 5 _ _);
    vm_compute; intros Hin;
    repeat (apply elem_of_cons in Hin as [Hin|Hin]; [discriminate|]);
    inversion Hin.
Defined.

(** * Further properties *)

(** ** The linear range mapping, continued *)

(** X1: [calc_us] does not clamp.  For a channel with [min < max] and
    [min_pos < 1] it is strictly increasing over the rationals, an input
    above 1.0 gives a pulse above [max] and an input below [min_pos] a
    pulse below [min]. *)
Theorem calc_us_extrapolates (ch : RCChan.t Q) (a b : pynum Q) :
  (num_val (RCChan.min ch) < num_val (RCChan.max ch))%Q ->
  (RCChan.min_pos ch < 1)%Q ->
  (num_val a < num_val b)%Q ->
  exists ua ub,
    RCChan.calc_us ch a = Ok (PyFloat ua) /\
    RCChan.calc_us ch b = Ok (PyFloat ub) /\
    (ua < ub)%Q /\
    (1 < num_val b -> num_val (RCChan.max ch) < ub)%Q /\
    (num_val a < RCChan.min_pos ch -> ua < num_val (RCChan.min ch))%Q.
Proof.
  intros Hpulse Hpos Hab.
  destruct (calc_us_Q ch a Hpos) as (ua & Ha & Hua).
  destruct (calc_us_Q ch b Hpos) as (ub & Hb & Hub).
  exists ua, ub. split; [exact Ha|]. split; [exact Hb|].
  set (lo := num_val (RCChan.min ch)) in *.
  set (hi := num_val (RCChan.max ch)) in *.
  set (mp := RCChan.min_pos ch) in *.
  assert (Hinv : (0 < / (1 - mp))%Q) by (apply Qinv_lt_0_compat; lra).
  assert (Hslope : (0 < (hi - lo) * / (1 - mp))%Q).
  { apply Qmult_lt_0_compat; [lra|exact Hinv]. }
  assert (Hform : forall p,
    ((p - mp) * (hi - lo) / (1 - mp) + lo
     == (p - mp) * ((hi - lo) * / (1 - mp)) + lo)%Q).
  { intros p. unfold Qdiv. ring. }
  rewrite Hform in Hua, Hub.
  assert (Hone : ((1 - mp) * ((hi - lo) * / (1 - mp)) == hi - lo)%Q).
  { field. lra. }
  set (s := ((hi - lo) * / (1 - mp))%Q) in *.
  split; [|split].
  - rewrite Hua, Hub. nra.
  - intros Hb1. rewrite Hub. nra.
  - intros Ha1. rewrite Hua. nra.
Qed.

Lemma calc_us_extrapolates_witness :
  exists ua ub,
    RCChan.calc_us (RCChan.init "roll" 0 (-1)%Q) (PyFloat (-2)%Q)
      = Ok (PyFloat ua) /\
    RCChan.calc_us (RCChan.init "roll" 0 (-1)%Q) (PyFloat 2%Q)
      = Ok (PyFloat ub) /\
    (ua < ub)%Q /\
    (1 < 2 -> 2000 < ub)%Q /\
    (-2 < -1 -> ua < 1000)%Q.
Proof.
  refine (calc_us_extrapolates (RCChan.init "roll" 0 (-1)%Q)
            (PyFloat (-2)%Q) (PyFloat 2%Q) _ _ _); reflexivity.
Defined.

(** X2: a channel whose pulse bounds are swapped ([max < min]) is
    reversed: over the rationals a larger input gives a pulse that is not
    larger. *)
Theorem calc_us_reversed_channel (ch : RCChan.t Q) (a b : pynum Q) :
  (num_val (RCChan.max ch) < num_val (RCChan.min ch))%Q ->
  (RCChan.min_pos ch < 1)%Q ->
  (num_val a <= num_val b)%Q ->
  exists ua ub,
    RCChan.calc_us ch a = Ok (PyFloat ua) /\
    RCChan.calc_us ch b = Ok (PyFloat ub) /\
    (ub <= ua)%Q.
Proof.
  intros Hpulse Hpos Hab.
  destruct (calc_us_Q ch a Hpos) as (ua & Ha & Hua).
  destruct (calc_us_Q ch b Hpos) as (ub & Hb & Hub).
  exists ua, ub. split; [exact Ha|]. split; [exact Hb|].
  set (lo := num_val (RCChan.min ch)) in *.
  set (hi := num_val (RCChan.max ch)) in *.
  set (mp := RCChan.min_pos ch) in *.
  assert (Hinv : (0 < / (1 - mp))%Q) by (apply Qinv_lt_0_compat; lra).
  assert (Hslope : (0 < (lo - hi) * / (1 - mp))%Q).
  { apply Qmult_lt_0_compat; [lra|exact Hinv]. }
  assert (Hform : forall p,
    ((p - mp) * (hi - lo) / (1 - mp) + lo
     == lo - (p - mp) * ((lo - hi) * / (1 - mp)))%Q).
  { intros p. unfold Qdiv. ring. }
  rewrite Hform in Hua, Hub.
  set (s := ((lo - hi) * / (1 - mp))%Q) in *.
  rewrite Hua, Hub. nra.
Qed.

Lemma calc_us_reversed_channel_witness :
  exists ua ub,
    RCChan.calc_us reversed_roll (PyFloat (-1)%Q) = Ok (PyFloat ua) /\
    RCChan.calc_us reversed_roll (PyFloat 1%Q) = Ok (PyFloat ub) /\
    (ub <= ua)%Q.
Proof.
  refine (calc_us_reversed_channel reversed_roll
            (PyFloat (-1)%Q) (PyFloat 1%Q) _ _ _);
    vm_compute; first [reflexivity | discriminate].
Defined.

(** X3: an input range whose two ends coincide makes [arduino_map] raise
    [ZeroDivisionError]: for rational floats, for binary64 floats whose
    difference compares equal to 0.0, and for integers. *)
Theorem arduino_map_empty_input_range :
  (forall x edge outmin outmax : Q,
      arduino_map (PyFloat x) (PyFloat edge) (PyFloat edge)
                  (PyFloat outmin) (PyFloat outmax)
      = Raise ZeroDivisionError) /\
  (forall x edge outmin outmax : float,
      PrimFloat.eqb (edge - edge) 0 = true ->
      arduino_map (PyFloat x) (PyFloat edge) (PyFloat edge)
                  (PyFloat outmin) (PyFloat outmax)
      = Raise ZeroDivisionError) /\
  (forall (F : Type) (HF : Float F) (x edge outmin outmax : Z),
      arduino_map (F:=F) (PyInt x) (PyInt edge) (PyInt edge)
                  (PyInt outmin) (PyInt outmax)
      = Raise ZeroDivisionError).
Proof.
  split; [|split].
  - intros x edge outmin outmax.
    unfold arduino_map, py_sub, py_mul, py_div, py_arith. cbn.
    replace (Qeq_bool (edge - edge) 0) with true; [reflexivity|].
    symmetry. apply Qeq_bool_iff. ring.
  - intros x edge outmin outmax Hzero.
    unfold arduino_map, py_sub, py_mul, py_div, py_arith. cbn.
    rewrite Hzero. reflexivity.
  - intros F HF x edge outmin outmax.
    unfold arduino_map, py_sub, py_mul, py_div, py_arith. cbn.
    rewrite Z.sub_diag. reflexivity.
Qed.

Lemma arduino_map_empty_input_range_witness :
  arduino_map (PyFloat 0.5%float) (PyFloat 1%float) (PyFloat 1%float)
              (PyFloat 1000%float) (PyFloat 2000%float)
  = Raise ZeroDivisionError.
Proof.
  destruct arduino_map_empty_input_range as (_ & Hbinary64 & _).
  apply Hbinary64. reflexivity.
Defined.

(** X4: without [reverse_throttle], the normalised throttle lies in
    [0, 1] exactly when the raw throttle lies in [-1, 1] (over the
    rationals): a scaled stick outside [-1, 1] leaves the unit range. *)
Theorem thd_normalize_unit_range (v : Q) :
  exists t,
    attitude_setpoint_control.thd_normalize false (PyFloat v) = Ok (PyFloat t) /\
    ((0 <= t <= 1)%Q <-> (-1 <= v <= 1)%Q).
Proof.
  eexists. split.
  - apply arduino_map_floats. reflexivity.
  - cbn.
    assert (Hform : ((v - - (1)) * (1 - 0) / (1 - - (1)) + 0
                     == (v + 1) * (1 # 2))%Q) by field.
    rewrite Hform. split; intros [Hlo Hhi]; split; lra.
Qed.

(** ** Loading, continued *)

Section LoadingMore.
Context {F : Type} `{Float F}.

(** X5: [load_map] neither adds nor drops a key, loading twice is the
    same as loading once, and parameters that name no key of the table are
    ignored. *)
Theorem load_map_keeps_keys {V} (store store' m : gmap string V) (n : string) :
  dom (load_map store m n) = dom m /\
  load_map store (load_map store m n) n = load_map store m n /\
  ((forall k, k ∈ dom m -> store !! (n +:+ k) = store' !! (n +:+ k)) ->
   load_map store m n = load_map store' m n).
Proof.
  split; [|split].
  - apply set_eq. intros k. rewrite !elem_of_dom, load_map_lookup.
    destruct (m !! k); cbn; split; intros [? ?]; eauto; discriminate.
  - apply map_eq. intros k. rewrite !load_map_lookup.
    destruct (m !! k) as [v|]; [|reflexivity]. cbn. f_equal.
    unfold get_param. destruct (store !! (n +:+ k)); reflexivity.
  - intros Hagree. apply map_eq. intros k. rewrite !load_map_lookup.
    destruct (m !! k) as [v|] eqn:Hk; [|reflexivity]. cbn. f_equal.
    unfold get_param. rewrite Hagree; [reflexivity|].
    apply elem_of_dom. eauto.
Qed.

Lemma loaded_axis (ps : param_server F) (n : string) :
  n ∈ ["roll"; "pitch"; "yaw"; "throttle"] ->
  exists i s,
    axes_map (load_maps ps initial_config) !! n = Some i /\
    axes_scale (load_maps ps initial_config) !! n = Some s.
Proof.
  intros Hn. cbn [load_maps axes_map axes_scale].
  rewrite !load_map_lookup.
  repeat (apply elem_of_cons in Hn as [->|Hn]; [do 2 eexists; split; reflexivity|]).
  inversion Hn.
Qed.

Lemma loaded_button (ps : param_server F) (n : string) :
  n ∈ ["arm"; "disarm"; "takeoff"; "land"; "enable"] ->
  exists i, button_map (load_maps ps initial_config) !! n = Some i.
Proof.
  intros Hn. cbn [load_maps button_map]. rewrite !load_map_lookup.
  repeat (apply elem_of_cons in Hn as [->|Hn]; [eexists; reflexivity|]).
  inversion Hn.
Qed.

(** X6: whatever the parameter server holds, after the three [load_map]
    calls the four logical axes and the five logical buttons are still in
    the tables: reading an axis gives a float or raises [IndexError] or
    [OverflowError], reading a button gives its value or raises
    [IndexError]; a [KeyError] cannot happen. *)
Theorem loaded_names_always_resolve (ps : param_server F) (joy : Joy F) :
  let cfg := load_maps ps initial_config in
  (forall n, n ∈ ["roll"; "pitch"; "yaw"; "throttle"] ->
     (exists f, get_axis cfg joy n = Ok (PyFloat f)) \/
     get_axis cfg joy n = Raise IndexError \/
     get_axis cfg joy n = Raise OverflowError) /\
  (forall n, n ∈ ["arm"; "disarm"; "takeoff"; "land"; "enable"] ->
     (exists b, get_buttons cfg joy n = Ok b) \/
     get_buttons cfg joy n = Raise IndexError).
Proof.
  intros cfg. split.
  - intros n Hn. destruct (loaded_axis ps n Hn) as (i & s & Hi & Hs).
    unfold get_axis, py_dict_get. fold cfg in Hi, Hs. rewrite Hi, Hs. cbn.
    unfold py_getitem. destruct (py_index _ i) as [k|]; [|by right; left].
    destruct (axes joy !! k) as [a|]; [|by right; left]. cbn.
    unfold py_mul, py_arith. destruct s as [z|s]; cbn; [|by left; eauto].
    destruct (fof_Z z); cbn; [by left; eauto|by right; right].
  - intros n Hn. destruct (loaded_button ps n Hn) as (i & Hi).
    unfold get_buttons, py_dict_get. fold cfg in Hi. rewrite Hi. cbn.
    unfold py_getitem. destruct (py_index _ i) as [k|]; [|by right].
    destruct (buttons joy !! k) as [b|]; [left; eauto|by right].
Qed.
End LoadingMore.

Lemma loaded_names_always_resolve_witness :
  get_axis (load_maps no_params initial_config) short_sample "roll"
    = Raise IndexError /\
  ((exists b, get_buttons (load_maps no_params initial_config)
                (sample_button0 1) "arm" = Ok b) \/
   get_buttons (load_maps no_params initial_config) (sample_button0 1) "arm"
     = Raise IndexError).
Proof.
  split; [reflexivity|].
  destruct (loaded_names_always_resolve no_params (sample_button0 1))
    as [_ Hbuttons].
  apply Hbuttons. set_solver.
Defined.

Lemma load_map_keeps_keys_witness :
  load_map yaw_on_axis2 (axes_map (initial_config (F:=float))) "~axes_map/"
  = load_map yaw_on_axis2_and_more (axes_map (initial_config (F:=float)))
      "~axes_map/".
Proof.
  destruct (load_map_keeps_keys yaw_on_axis2 yaw_on_axis2_and_more
              (axes_map (initial_config (F:=float))) "~axes_map/")
    as (_ & _ & Hsame).
  apply Hsame. intros k Hk. apply elem_of_dom in Hk as [i Hi].
  cbn [axes_map initial_config] in Hi.
  repeat (apply lookup_insert_Some in Hi as [[<- _]|[_ Hi]]; [reflexivity|]).
  apply lookup_singleton_Some in Hi as [<- _]. reflexivity.
Defined.

(** ** RC override start-up *)

Section OverrideSetup.
Context {F : Type} `{Float F}.
Import rc_override_control.

Lemma of_item_Ok (name : string) (d : RCMode.data F) (m : RCMode.t F) :
  RCMode.of_item name d = Ok m <-> built_from (name, d) m.
Proof.
  unfold RCMode.of_item, RCMode.field, built_from. destruct d as [[fl|] [ch|] [v|]], m as [n' fl' ch' v'];
    cbn; split; try discriminate; try (intros (_ & ? & ? & ?); discriminate).
  - intros [= <- <- <- <-]. auto.
  - intros (-> & [= ->] & [= ->] & [= ->]). reflexivity.
Qed.

Lemma of_item_Raise (name : string) (d : RCMode.data F) (ex : exn) :
  RCMode.of_item name d = Raise ex <->
  exists key, first_missing d = Some key /\ ex = KeyError key.
Proof.
  unfold RCMode.of_item, RCMode.field, first_missing.
  destruct d as [[fl|] [ch|] [v|]]; cbn; split; intros Hx;
    first [ discriminate
          | injection Hx as <-; eexists; split; reflexivity
          | destruct Hx as (key & Hkey & ->);
            first [discriminate | injection Hkey as <-; reflexivity] ].
Qed.

Lemma of_items_Ok (items : list (string * RCMode.data F))
    (ms : list (RCMode.t F)) :
  RCMode.of_items items = Ok ms <-> Forall2 built_from items ms.
Proof.
  revert ms. induction items as [|[name d] items IH]; intros ms;
    cbn [RCMode.of_items].
  - split; [intros [= <-]; constructor|]. by inversion 1.
  - destruct (RCMode.of_item name d) as [m|ex] eqn:Hm; cbn.
    + destruct (RCMode.of_items items) as [ms'|ex] eqn:Hms; cbn.
      * split.
        -- intros [= <-]. constructor; [by apply of_item_Ok|by apply IH].
        -- inversion 1 as [|? m' ? ms'' Hb Hrest]; subst.
           apply of_item_Ok in Hb. apply IH in Hrest. congruence.
      * split; [discriminate|].
        inversion 1 as [|? m' ? ms'' Hb Hrest]; subst.
        apply IH in Hrest. discriminate.
    + split; [discriminate|].
      inversion 1 as [|? m' ? ms'' Hb Hrest]; subst.
      apply of_item_Ok in Hb. congruence.
Qed.

Lemma of_items_Raise (items : list (string * RCMode.data F)) (ex : exn) :
  RCMode.of_items items = Raise ex <->
  exists pre name d post key,
    items = pre ++ (name, d) :: post /\
    Forall (fun item => first_missing item.2 = None) pre /\
    first_missing d = Some key /\ ex = KeyError key.
Proof.
  revert ex. induction items as [|[name d] items IH]; intros ex;
    cbn [RCMode.of_items].
  - split; [discriminate|].
    intros (pre & ? & ? & ? & ? & Happ & _). by destruct pre.
  - destruct (RCMode.of_item name d) as [m|ex'] eqn:Hm; cbn.
    + assert (Hfull : first_missing d = None).
      { destruct (first_missing d) as [key|] eqn:Hkey; [|reflexivity].
        assert (RCMode.of_item name d = Raise (KeyError key)) as Hr
          by (apply of_item_Raise; eauto).
        congruence. }
      destruct (RCMode.of_items items) as [ms|ex''] eqn:Hms; cbn.
      * split; [discriminate|].
        intros (pre & n' & d' & post & key & Happ & Hpre & Hkey & ->).
        destruct pre as [|p pre]; cbn in Happ.
        -- injection Happ as <- <- <-. congruence.
        -- injection Happ as <- ->. inversion Hpre; subst.
           assert (@Ok (list (RCMode.t F)) ms = Raise (KeyError key)) as Hbad;
             [|discriminate].
           apply IH. eauto 10.
      * split.
        -- intros [= <-].
           destruct (proj1 (IH ex'') eq_refl)
             as (pre & n' & d' & post & key & -> & Hpre & Hkey & ->).
           exists ((name, d) :: pre), n', d', post, key.
           split; [reflexivity|]. split; [by constructor|]. by split.
        -- intros (pre & n' & d' & post & key & Happ & Hpre & Hkey & ->).
           destruct pre as [|p pre]; cbn in Happ.
           ++ injection Happ as <- <- <-. congruence.
           ++ injection Happ as <- ->. inversion Hpre; subst.
              apply IH. eauto 10.
    + apply of_item_Raise in Hm as (key & Hkey & ->). split.
      * intros [= <-]. exists [], name, d, items, key. by repeat split.
      * intros (pre & n' & d' & post & key' & Happ & Hpre & Hkey' & ->).
        destruct pre as [|p pre]; cbn in Happ.
        -- injection Happ as <- <- <-. congruence.
        -- injection Happ as <- ->. inversion Hpre; subst. cbn in *.
           congruence.
Qed.

(** X7: start-up of the RC override type fails, with a [KeyError], in
    exactly two cases: [~rc_modes/] is not set, or one of its entries
    lacks a field the constructor reads, and then the error names the
    first missing field of the first such entry.  When it succeeds the
    frame is all zeros, the overlays carry the names and fields of the
    dictionary's items in their order, and the channel table has the same
    four entries with their names and [min_pos] untouched: parameters
    reach only [chan], [min] and [max]. *)
Theorem setup_needs_rc_modes (ps : param_server F) (n_channels : nat) :
  (forall ex,
      setup ps n_channels = Raise ex <->
      (rc_modes_yaml ps = None /\ ex = KeyError "~rc_modes/") \/
      (exists pre name d post key,
          rc_modes_yaml ps = Some (pre ++ (name, d) :: post) /\
          Forall (fun item => first_missing item.2 = None) pre /\
          first_missing d = Some key /\ ex = KeyError key)) /\
  (forall cfg rc_modes rc,
      setup ps n_channels = Ok (cfg, rc_modes, rc) ->
      rc = replicate n_channels (PyInt 0) /\
      (exists items, rc_modes_yaml ps = Some items /\
                     Forall2 built_from items rc_modes) /\
      forall n,
        match rc_channels initial_config !! n, rc_channels cfg !! n with
        | Some ch0, Some ch =>
            RCChan.name ch = RCChan.name ch0 /\
            RCChan.min_pos ch = RCChan.min_pos ch0
        | None, None => True
        | _, _ => False
        end).
Proof.
  unfold setup, RCMode.load_param.
  destruct (rc_modes_yaml ps) as [items|] eqn:Hyaml.
  - destruct (RCMode.of_items items) as [ms|ex'] eqn:Hitems; cbn.
    + split.
      * intros ex. split; [discriminate|].
        intros [[[=] _]|(pre & name & d & post & key & [= ->] & Hpre & Hkey & ->)].
        assert (RCMode.of_items (pre ++ (name, d) :: post)
                = Raise (KeyError key)) as Hbad
          by (apply of_items_Raise; eauto 10).
        congruence.
      * intros cfg rc_modes rc [= <- <- <-]. split; [reflexivity|]. split.
        -- exists items. split; [reflexivity|]. by apply of_items_Ok.
        -- intros n. cbn [rc_channels load_maps initial_config].
           rewrite lookup_fmap.
           match goal with
           | |- context [?table !! n] => destruct (table !! n)
           end; cbn; auto.
    + split; [|intros cfg rc_modes rc [=]].
      intros ex. split.
      * intros [= <-]. right.
        apply of_items_Raise in Hitems
          as (pre & name & d & post & key & -> & Hpre & Hkey & ->).
        exists pre, name, d, post, key. by repeat split.
      * intros [[[=] _]|(pre & name & d & post & key & [= ->] & Hpre & Hkey & ->)].
        assert (RCMode.of_items (pre ++ (name, d) :: post)
                = Raise (KeyError key)) as Hbad
          by (apply of_items_Raise; eauto 10).
        congruence.
  - cbn. split; [|intros cfg rc_modes rc [=]].
    intros ex. split.
    + intros [= <-]. by left.
    + intros [[_ ->]|(pre & name & d & post & key & [=] & _)]. reflexivity.
Qed.
End OverrideSetup.

Lemma setup_needs_rc_modes_witness :
  rc_override_control.setup bare_params 8 = Raise (KeyError "~rc_modes/") /\
  rc_override_control.setup broken_overlay_params 8
    = Raise (KeyError "rc_channel") /\
  (forall cfg rc_modes rc,
      rc_override_control.setup no_params 8 = Ok (cfg, rc_modes, rc) ->
      rc = idle_frame).
Proof.
  split; [|split].
  - destruct (setup_needs_rc_modes bare_params 8) as [Hfails _].
    apply Hfails. left. split; reflexivity.
  - destruct (setup_needs_rc_modes broken_overlay_params 8) as [Hfails _].
    apply Hfails. right.
    eexists [_], _, _, [], _. split; [reflexivity|].
    split; [by repeat constructor|]. split; reflexivity.
  - intros cfg rc_modes rc Hok.
    destruct (setup_needs_rc_modes no_params 8) as [_ Hloaded].
    exact (proj1 (Hloaded cfg rc_modes rc Hok)).
Defined.

(** ** The RC override callback, continued *)

Section OverrideMore.
Context {F : Type} `{Float F}.
Import rc_override_control.

Lemma frame_callback_bind (R : list (pynum F) -> list (pynum F) -> Prop)
    `{!Transitive R} {A B} (m : M F (list (pynum F)) A)
    (f : A -> M F (list (pynum F)) B) :
  quiet R m -> (forall a, frame_callback R (f a)) ->
  frame_callback R (bind m f).
Proof.
  intros Hm Hf rc. specialize (Hm rc). unfold bind.
  destruct (m rc) as [[[a|ex] rc1] t1]; cbn in *.
  - specialize (Hf a rc1). destruct (f a rc1) as [[r rc2] t2]; cbn in *.
    destruct Hm as [Hm ->], Hf as [Hf ->]. split; [|reflexivity].
    by transitivity rc1.
  - exact Hm.
Qed.

(** X8: the callback never changes the number of channels of the frame,
    however it ends, and it publishes the frame it leaves exactly once
    when it ends normally and nothing when it raises. *)
Theorem joy_cb_keeps_frame_size (cfg : config F) (rc_modes : list (RCMode.t F))
    (joy : Joy F) (rc : list (pynum F)) :
  let out := joy_cb cfg rc_modes joy rc in
  length out.1.2 = length rc /\
  out.2 = match out.1.1 with
          | Ok _ => [EvPublish "override_pub" (OverrideRCIn out.1.2)]
          | Raise _ => []
          end.
Proof.
  assert (Hcb : frame_callback same_length (joy_cb cfg rc_modes joy)).
  { unfold joy_cb.
    repeat (apply frame_callback_bind;
            [apply _|apply quiet_lift; apply _|intros ?]).
    repeat (apply frame_callback_bind;
            [apply _|apply set_chan_length|intros _]).
    apply frame_callback_bind; [apply _| |].
    { apply quiet_for_each; [apply _..|].
      intros m _. apply apply_mode_length. }
    intros _ s. split; reflexivity. }
  exact (Hcb rc).
Qed.

Lemma set_chan_writes (cfg : config F) (n : string) (v : pynum F)
    (rc : list (pynum F)) (ch : RCChan.t F) (us : pynum F) (k : nat) :
  rc_channels cfg !! n = Some ch ->
  RCChan.calc_us ch v = Ok us ->
  py_index (length rc) (RCChan.chan ch) = Some k ->
  set_chan cfg n v rc = (Ok tt, <[k := us]> rc, []).
Proof.
  intros Hch Hus Hk.
  unfold set_chan, bind, lift, get, put, py_dict_get, py_setitem.
  rewrite Hch, Hus, Hk. reflexivity.
Qed.

(** The callback once the four pulses are known: the overlays run on the
    frame with the pulses written in the order roll, pitch, yaw,
    throttle. *)
Lemma joy_cb_after_calibration (cfg : config F) (rc_modes : list (RCMode.t F))
    (joy : Joy F) (rc : list (pynum F))
    (roll pitch yaw t throttle : pynum F)
    (ch_roll ch_pitch ch_yaw ch_throttle : RCChan.t F)
    (us_roll us_pitch us_yaw us_throttle : pynum F)
    (k_roll k_pitch k_yaw k_throttle : nat) :
  axes_are cfg joy roll pitch yaw t ->
  arduino_map t (PyFloat (fopp fone)) (PyFloat fone)
                (PyFloat fzero) (PyFloat fone) = Ok throttle ->
  rc_channels cfg !! "roll" = Some ch_roll ->
  rc_channels cfg !! "pitch" = Some ch_pitch ->
  rc_channels cfg !! "yaw" = Some ch_yaw ->
  rc_channels cfg !! "throttle" = Some ch_throttle ->
  RCChan.calc_us ch_roll roll = Ok us_roll ->
  RCChan.calc_us ch_pitch pitch = Ok us_pitch ->
  RCChan.calc_us ch_yaw yaw = Ok us_yaw ->
  RCChan.calc_us ch_throttle throttle = Ok us_throttle ->
  py_index (length rc) (RCChan.chan ch_roll) = Some k_roll ->
  py_index (length rc) (RCChan.chan ch_pitch) = Some k_pitch ->
  py_index (length rc) (RCChan.chan ch_yaw) = Some k_yaw ->
  py_index (length rc) (RCChan.chan ch_throttle) = Some k_throttle ->
  joy_cb cfg rc_modes joy rc =
    bind (for_each rc_modes (fun m => RCMode.apply_mode m joy))
         (fun _ => bind get (fun rc' =>
                     emit (EvPublish "override_pub" (OverrideRCIn rc'))))
         (<[k_throttle := us_throttle]>
            (<[k_yaw := us_yaw]>
               (<[k_pitch := us_pitch]> (<[k_roll := us_roll]> rc)))).
Proof.
  intros (Hr & Hp & Hy & Ht) Hn Cr Cp Cy Ct Ur Up Uy Ut Kr Kp Ky Kt.
  unfold joy_cb, bind, lift. rewrite Hr, Hp, Hy, Ht. cbn [mbind result_bind].
  rewrite Hn.
  rewrite (set_chan_writes cfg "roll" roll rc ch_roll us_roll k_roll Cr Ur Kr).
  rewrite (set_chan_writes cfg "pitch" pitch _ ch_pitch us_pitch k_pitch Cp Up)
    by (by rewrite length_insert).
  rewrite (set_chan_writes cfg "yaw" yaw _ ch_yaw us_yaw k_yaw Cy Uy)
    by (by rewrite !length_insert).
  rewrite (set_chan_writes cfg "throttle" throttle _ ch_throttle us_throttle
             k_throttle Ct Ut) by (by rewrite !length_insert).
  destruct (for_each rc_modes _ _) as [[[[]|ex] s1] t1]; reflexivity.
Qed.

Lemma for_each_idle (rc_modes : list (RCMode.t F)) (joy : Joy F)
    (rc : list (pynum F)) :
  Forall (fun m => RCMode.is_toggled m joy = Ok false) rc_modes ->
  for_each rc_modes (fun m => RCMode.apply_mode m joy) rc = (Ok tt, rc, []).
Proof.
  induction 1 as [|m rc_modes Hm _ IH]; [reflexivity|].
  cbn [for_each]. unfold bind at 1.
  unfold RCMode.apply_mode at 1, bind at 1, lift at 1. rewrite Hm.
  cbn. rewrite IH. reflexivity.
Qed.

(** X9: when the four axes can be read and calibrated and no overlay
    fires, the callback publishes the frame it found with the four pulses
    written to their channels in the order roll, pitch, yaw, throttle (on
    a shared channel the later axis wins); all other channels keep their
    values. *)
Theorem joy_cb_publishes_calibration (cfg : config F)
    (rc_modes : list (RCMode.t F)) (joy : Joy F) (rc : list (pynum F))
    (roll pitch yaw t throttle : pynum F)
    (ch_roll ch_pitch ch_yaw ch_throttle : RCChan.t F)
    (us_roll us_pitch us_yaw us_throttle : pynum F)
    (k_roll k_pitch k_yaw k_throttle : nat) :
  axes_are cfg joy roll pitch yaw t ->
  arduino_map t (PyFloat (fopp fone)) (PyFloat fone)
                (PyFloat fzero) (PyFloat fone) = Ok throttle ->
  rc_channels cfg !! "roll" = Some ch_roll ->
  rc_channels cfg !! "pitch" = Some ch_pitch ->
  rc_channels cfg !! "yaw" = Some ch_yaw ->
  rc_channels cfg !! "throttle" = Some ch_throttle ->
  RCChan.calc_us ch_roll roll = Ok us_roll ->
  RCChan.calc_us ch_pitch pitch = Ok us_pitch ->
  RCChan.calc_us ch_yaw yaw = Ok us_yaw ->
  RCChan.calc_us ch_throttle throttle = Ok us_throttle ->
  py_index (length rc) (RCChan.chan ch_roll) = Some k_roll ->
  py_index (length rc) (RCChan.chan ch_pitch) = Some k_pitch ->
  py_index (length rc) (RCChan.chan ch_yaw) = Some k_yaw ->
  py_index (length rc) (RCChan.chan ch_throttle) = Some k_throttle ->
  Forall (fun m => RCMode.is_toggled m joy = Ok false) rc_modes ->
  let rc' := <[k_throttle := us_throttle]>
               (<[k_yaw := us_yaw]>
                  (<[k_pitch := us_pitch]> (<[k_roll := us_roll]> rc))) in
  joy_cb cfg rc_modes joy rc =
    (Ok tt, rc', [EvPublish "override_pub" (OverrideRCIn rc')]).
Proof.
  intros Haxes Hn Cr Cp Cy Ct Ur Up Uy Ut Kr Kp Ky Kt Hidle rc'.
  rewrite (joy_cb_after_calibration cfg rc_modes joy rc _ _ _ _ _ _ _ _ _
             _ _ _ _ _ _ _ _ Haxes Hn Cr Cp Cy Ct Ur Up Uy Ut Kr Kp Ky Kt).
  unfold bind at 1. rewrite (for_each_idle _ _ _ Hidle). reflexivity.
Qed.
End OverrideMore.

Lemma joy_cb_publishes_calibration_witness :
  let rc' := [PyFloat 1500; PyFloat 1500; PyFloat 2000; PyFloat 1500;
              PyInt 0; PyInt 0; PyInt 0; PyInt 0]%float in
  rc_override_control.joy_cb initial_config [mode_switch] (sample_button0 0)
    idle_frame
  = (Ok tt, rc', [EvPublish "override_pub" (OverrideRCIn rc')]).
Proof.
  refine (joy_cb_publishes_calibration initial_config [mode_switch]
            (sample_button0 0) idle_frame
            (PyFloat 0%float) (PyFloat 0%float) (PyFloat 0%float)
            (PyFloat 1%float) (PyFloat 1%float)
            (RCChan.init "roll" 0 (-1)%float) (RCChan.init "pitch" 1 (-1)%float)
            (RCChan.init "yaw" 3 (-1)%float) (RCChan.init "throttle" 2 0%float)
            (PyFloat 1500%float) (PyFloat 1500%float) (PyFloat 1500%float)
            (PyFloat 2000%float) 0%nat 1%nat 3%nat 2%nat
            _ _ _ _ _ _ _ _ _ _ _ _ _ _ _);
    first [reflexivity | by repeat split | by repeat constructor].
Defined.

Lemma py_index_nat (len k : nat) :
  (k < len)%nat -> py_index len (Z.of_nat k) = Some k.
Proof.
  intros Hk. unfold py_index.
  destruct (Z.leb_spec 0 (Z.of_nat k)); [|lia].
  destruct (Z.ltb_spec (Z.of_nat k) (Z.of_nat len)); [|lia].
  by rewrite Nat2Z.id.
Qed.

(** X10: with the default channel table and no overlays, over the
    rationals every stick value [v] (throttle included, through its
    normalisation) becomes the pulse [1500 + 500 * v]: roll on channel 0,
    pitch on 1, throttle on 2 and yaw on 3 of any frame with at least four
    channels. *)
Theorem default_pulses (cfg : config Q) (joy : Joy Q) (rc : list (pynum Q))
    (roll pitch yaw throttle : Q) :
  rc_channels cfg = rc_channels initial_config ->
  axes_are cfg joy (PyFloat roll) (PyFloat pitch) (PyFloat yaw)
           (PyFloat throttle) ->
  (4 <= length rc)%nat ->
  exists u0 u1 u2 u3,
    let rc' := <[2%nat := PyFloat u2]>
                 (<[3%nat := PyFloat u3]>
                    (<[1%nat := PyFloat u1]> (<[0%nat := PyFloat u0]> rc))) in
    rc_override_control.joy_cb cfg [] joy rc =
      (Ok tt, rc', [EvPublish "override_pub" (OverrideRCIn rc')]) /\
    (u0 == 1500 + 500 * roll)%Q /\
    (u1 == 1500 + 500 * pitch)%Q /\
    (u2 == 1500 + 500 * throttle)%Q /\
    (u3 == 1500 + 500 * yaw)%Q.
Proof.
  intros Hcfg Haxes Hlen.
  destruct (calc_us_Q (RCChan.init "roll" 0 (fopp fone)) (PyFloat roll))
    as (u0 & H0 & E0); [reflexivity|].
  destruct (calc_us_Q (RCChan.init "pitch" 1 (fopp fone)) (PyFloat pitch))
    as (u1 & H1 & E1); [reflexivity|].
  destruct (calc_us_Q (RCChan.init "yaw" 3 (fopp fone)) (PyFloat yaw))
    as (u3 & H3 & E3); [reflexivity|].
  set (t := ((throttle - - (1)) * (1 - 0) / (1 - - (1)) + 0)%Q).
  destruct (calc_us_Q (RCChan.init "throttle" 2 fzero) (PyFloat t))
    as (u2 & H2 & E2); [reflexivity|].
  exists u0, u1, u2, u3. split; [|split; [|split; [|split]]].
  - rewrite (joy_cb_after_calibration cfg [] joy rc
               (PyFloat roll) (PyFloat pitch) (PyFloat yaw) (PyFloat throttle)
               (PyFloat t)
               (RCChan.init "roll" 0 (fopp fone))
               (RCChan.init "pitch" 1 (fopp fone))
               (RCChan.init "yaw" 3 (fopp fone))
               (RCChan.init "throttle" 2 fzero)
               (PyFloat u0) (PyFloat u1) (PyFloat u3) (PyFloat u2)
               0%nat 1%nat 3%nat 2%nat);
      try assumption; try (rewrite Hcfg; reflexivity);
      try (apply (py_index_nat _ 0); lia);
      try (apply (py_index_nat _ 1); lia);
      try (apply (py_index_nat _ 2); lia);
      try (apply (py_index_nat _ 3); lia);
      reflexivity.
  - rewrite E0. cbn. field.
  - rewrite E1. cbn. field.
  - rewrite E2. subst t. cbn. field.
  - rewrite E3. cbn. field.
Qed.

Lemma default_pulses_witness :
  exists u0 u1 u2 u3,
    let rc' := <[2%nat := PyFloat u2]>
                 (<[3%nat := PyFloat u3]>
                    (<[1%nat := PyFloat u1]>
                       (<[0%nat := PyFloat u0]> idle_frame_Q))) in
    rc_override_control.joy_cb initial_config [] (pitch_forward_Q (1 # 2))
      idle_frame_Q
    = (Ok tt, rc', [EvPublish "override_pub" (OverrideRCIn rc')]) /\
    (u0 == 1500 + 500 * 0)%Q /\
    (u1 == 1500 + 500 * 1)%Q /\
    (u2 == 1500 + 500 * 0)%Q /\
    (u3 == 1500 + 500 * (1 # 2))%Q.
Proof.
  refine (default_pulses initial_config (pitch_forward_Q (1 # 2)) idle_frame_Q
            0 1 (1 # 2) 0 _ _ _);
    first [reflexivity | by repeat split | (cbn; lia)].
Defined.

Section OverrideErrors.
Context {F : Type} `{Float F}.
Import rc_override_control.

(** X11: when the first overlay fires and its channel is outside the
    frame, the callback raises [IndexError]: nothing is published for that
    sample and the overlays after it have no effect, but the four pulses
    are already written to the persistent frame. *)
Theorem bad_overlay_channel_drops_frame (cfg : config F)
    (m : RCMode.t F) (rc_modes : list (RCMode.t F))
    (joy : Joy F) (rc : list (pynum F))
    (roll pitch yaw t throttle : pynum F)
    (ch_roll ch_pitch ch_yaw ch_throttle : RCChan.t F)
    (us_roll us_pitch us_yaw us_throttle : pynum F)
    (k_roll k_pitch k_yaw k_throttle : nat) :
  axes_are cfg joy roll pitch yaw t ->
  arduino_map t (PyFloat (fopp fone)) (PyFloat fone)
                (PyFloat fzero) (PyFloat fone) = Ok throttle ->
  rc_channels cfg !! "roll" = Some ch_roll ->
  rc_channels cfg !! "pitch" = Some ch_pitch ->
  rc_channels cfg !! "yaw" = Some ch_yaw ->
  rc_channels cfg !! "throttle" = Some ch_throttle ->
  RCChan.calc_us ch_roll roll = Ok us_roll ->
  RCChan.calc_us ch_pitch pitch = Ok us_pitch ->
  RCChan.calc_us ch_yaw yaw = Ok us_yaw ->
  RCChan.calc_us ch_throttle throttle = Ok us_throttle ->
  py_index (length rc) (RCChan.chan ch_roll) = Some k_roll ->
  py_index (length rc) (RCChan.chan ch_pitch) = Some k_pitch ->
  py_index (length rc) (RCChan.chan ch_yaw) = Some k_yaw ->
  py_index (length rc) (RCChan.chan ch_throttle) = Some k_throttle ->
  RCMode.is_toggled m joy = Ok true ->
  py_index (length rc) (RCMode.rc_channel m) = None ->
  joy_cb cfg (m :: rc_modes) joy rc =
    (Raise IndexError,
     <[k_throttle := us_throttle]>
       (<[k_yaw := us_yaw]>
          (<[k_pitch := us_pitch]> (<[k_roll := us_roll]> rc))),
     []).
Proof.
  intros Haxes Hn Cr Cp Cy Ct Ur Up Uy Ut Kr Kp Ky Kt Hfire Hbad.
  rewrite (joy_cb_after_calibration cfg (m :: rc_modes) joy rc _ _ _ _ _ _ _ _
             _ _ _ _ _ _ _ _ _ Haxes Hn Cr Cp Cy Ct Ur Up Uy Ut Kr Kp Ky Kt).
  cbn [for_each]. unfold bind at 1. unfold bind at 1.
  unfold RCMode.apply_mode, bind, lift, get, put, py_setitem.
  rewrite Hfire, !length_insert, Hbad. reflexivity.
Qed.
End OverrideErrors.

Lemma bad_overlay_channel_drops_frame_witness :
  rc_override_control.joy_cb initial_config [ninth_channel_switch]
    (sample_button0 1) idle_frame
  = (Raise IndexError,
     [PyFloat 1500; PyFloat 1500; PyFloat 2000; PyFloat 1500;
      PyInt 0; PyInt 0; PyInt 0; PyInt 0]%float,
     []).
Proof.
  refine (bad_overlay_channel_drops_frame initial_config ninth_channel_switch
            [] (sample_button0 1) idle_frame
            (PyFloat 0%float) (PyFloat 0%float) (PyFloat 0%float)
            (PyFloat 1%float) (PyFloat 1%float)
            (RCChan.init "roll" 0 (-1)%float) (RCChan.init "pitch" 1 (-1)%float)
            (RCChan.init "yaw" 3 (-1)%float) (RCChan.init "throttle" 2 0%float)
            (PyFloat 1500%float) (PyFloat 1500%float) (PyFloat 1500%float)
            (PyFloat 2000%float) 0%nat 1%nat 3%nat 2%nat
            _ _ _ _ _ _ _ _ _ _ _ _ _ _ _ _);
    first [reflexivity | by repeat split].
Defined.

(** ** Overlays, continued *)

Section OverlaysMore.
Context {F : Type}.

Lemma py_getitem_raises {A} (l : list A) (i : Z) (ex : exn) :
  py_getitem l i = Raise ex -> ex = IndexError.
Proof.
  unfold py_getitem. destruct (py_index _ _) as [k|]; [|by intros [= <-]].
  destruct (l !! k); [discriminate|by intros [= <-]].
Qed.

(** X12: [is_toggled] is decided by the first trigger pair that does not
    match.  It returns [True] when all pairs match, [False] when the first
    failing pair reads a different button value, and raises [IndexError]
    (the only exception it has) when the first failing pair's index is out
    of range; pairs after the first failing one are not read. *)
Theorem is_toggled_first_mismatch (m : RCMode.t F) (joy : Joy F) :
  let matches (p : Z * Z) := py_getitem (buttons joy) p.1 = Ok p.2 in
  match RCMode.is_toggled m joy with
  | Ok true => Forall matches (RCMode.joy_flags m)
  | Ok false =>
      exists pre btn flag post b,
        RCMode.joy_flags m = pre ++ (btn, flag) :: post /\
        Forall matches pre /\
        py_getitem (buttons joy) btn = Ok b /\ b <> flag
  | Raise ex =>
      ex = IndexError /\
      exists pre btn flag post,
        RCMode.joy_flags m = pre ++ (btn, flag) :: post /\
        Forall matches pre /\
        py_getitem (buttons joy) btn = Raise IndexError
  end.
Proof.
  intros matches. unfold RCMode.is_toggled.
  induction (RCMode.joy_flags m) as [|[btn flag] flags IH];
    cbn [RCMode.flags_match].
  - constructor.
  - destruct (py_getitem (buttons joy) btn) as [b|ex] eqn:Hb; cbn.
    + destruct (Z.eqb_spec b flag) as [->|Hne]; cbn.
      * destruct (RCMode.flags_match flags joy) as [[]|ex].
        -- constructor; [exact Hb|exact IH].
        -- destruct IH as (pre & btn' & flag' & post & b' & -> & Hpre & Hb' & Hne).
           exists ((btn, flag) :: pre), btn', flag', post, b'.
           split; [reflexivity|]. split; [by constructor|]. by split.
        -- destruct IH as (-> & pre & btn' & flag' & post & -> & Hpre & Hb').
           split; [reflexivity|].
           exists ((btn, flag) :: pre), btn', flag', post.
           split; [reflexivity|]. split; [by constructor|]. exact Hb'.
      * exists [], btn, flag, flags, b.
        split; [reflexivity|]. split; [constructor|]. by split.
    + apply py_getitem_raises in Hb as Hex. subst ex. split; [reflexivity|].
      exists [], btn, flag, flags.
      split; [reflexivity|]. split; [constructor|]. exact Hb.
Qed.

(** X13: a firing overlay writes slot [ch] when [0 <= ch < len], slot
    [len + ch] when [-len <= ch < 0] (a negative channel counts from the
    end), and otherwise raises [IndexError] and leaves the frame as it
    was. *)
Theorem apply_mode_channel_index (m : RCMode.t F) (joy : Joy F)
    (rc : list (pynum F)) :
  RCMode.is_toggled m joy = Ok true ->
  let ch := RCMode.rc_channel m in
  let len := Z.of_nat (length rc) in
  (0 <= ch < len ->
   RCMode.apply_mode m joy rc
     = (Ok tt, <[Z.to_nat ch := RCMode.rc_value m]> rc, [])) /\
  (- len <= ch < 0 ->
   RCMode.apply_mode m joy rc
     = (Ok tt, <[Z.to_nat (len + ch) := RCMode.rc_value m]> rc, [])) /\
  (~ (- len <= ch < len) ->
   RCMode.apply_mode m joy rc = (Raise IndexError, rc, [])).
Proof.
  intros Hfire ch len.
  unfold RCMode.apply_mode, bind, lift, get, put, py_setitem, py_index.
  rewrite Hfire. fold ch len.
  destruct (Z.leb_spec 0 ch), (Z.ltb_spec ch len), (Z.leb_spec (- len) ch);
    repeat split; intros; try lia; reflexivity.
Qed.
End OverlaysMore.

Lemma apply_mode_channel_index_witness :
  RCMode.apply_mode last_channel_switch (sample_button0 1) idle_frame
    = (Ok tt, <[7%nat := PyInt 1100]> idle_frame, []) /\
  RCMode.apply_mode ninth_channel_switch (sample_button0 1) idle_frame
    = (Raise IndexError, idle_frame, []).
Proof.
  destruct (apply_mode_channel_index last_channel_switch (sample_button0 1)
              idle_frame eq_refl) as (_ & Hend & _).
  destruct (apply_mode_channel_index ninth_channel_switch (sample_button0 1)
              idle_frame eq_refl) as (_ & _ & Hout).
  split.
  - apply Hend. cbn. lia.
  - apply Hout. cbn. lia.
Defined.

(** ** Arming, continued *)

Section ArmingMore.
Context {F : Type} `{Float F}.
Import attitude_setpoint_control.
Variable quaternion_from_euler : pynum F -> pynum F -> pynum F -> Quaternion F.

(** X14: [arm] sends exactly one arming request carrying [state] and then
    raises [NameError], on [fault] when the service raised and on [ret]
    when it answered; it logs nothing, changes no state and never
    returns. *)
Theorem arm_sends_request_then_raises {S} (e : env) (state : bool) (s : S) :
  exists name,
    arm (F:=F) e state s = (Raise (NameError name), s, [EvArming state]) /\
    (command_arming_reply e state = ArmingRaises -> name = "fault") /\
    (forall success, command_arming_reply e state = ArmingReturns success ->
                     name = "ret").
Proof.
  rewrite arm_raises.
  destruct (command_arming_reply e state) as [|success]; eexists;
    (split; [reflexivity|]); split; intros; congruence.
Qed.

(** X15: in the attitude callback, on a sample whose axes can be read, a
    pressed arm button, or a pressed disarm button, ends the callback with
    a [NameError] after one arming request (arm when the arm button is
    pressed, disarm otherwise); no setpoint is published for that
    sample. *)
Theorem pressed_button_aborts_setpoints (cfg : config F) (reverse : bool)
    (e : env) (joy : Joy F) (roll pitch yaw t throttle : pynum F)
    (arm_btn : Z) :
  axes_are cfg joy roll pitch yaw t ->
  thd_normalize reverse t = Ok throttle ->
  get_buttons cfg joy "arm" = Ok arm_btn ->
  arm_btn = 1 \/ get_buttons cfg joy "disarm" = Ok 1 ->
  exists name value,
    joy_cb quaternion_from_euler cfg reverse e joy tt
      = (Raise (NameError name), tt, [EvArming value]) /\
    (value = true <-> arm_btn = 1).
Proof.
  intros (Hr & Hp & Hy & Ht) Hn Ha Hpressed.
  rewrite (attitude_joy_cb_buttons _ _ _ _ _ _ _ _ _ _ Hr Hp Hy Ht Hn), Ha.
  destruct (Z.eqb_spec arm_btn 1) as [->|Hne].
  - rewrite arm_raises. do 2 eexists. split; [reflexivity|]. tauto.
  - destruct Hpressed as [?|Hd]; [contradiction|]. rewrite Hd. cbn.
    rewrite arm_raises. do 2 eexists. split; [reflexivity|].
    split; [discriminate|contradiction].
Qed.

(** X19: in the attitude callback, on a sample whose axes can be read and
    whose arm and disarm buttons both read something other than 1, exactly
    two messages are published, in this order: the pose with the
    orientation [quaternion_from_euler(roll, pitch, yaw)] and its position
    left at the origin, then the normalised throttle; no arming request is
    sent. *)
Theorem released_buttons_publish_setpoints (cfg : config F) (reverse : bool)
    (e : env) (joy : Joy F) (roll pitch yaw t throttle : pynum F)
    (arm_btn disarm_btn : Z) :
  axes_are cfg joy roll pitch yaw t ->
  thd_normalize reverse t = Ok throttle ->
  get_buttons cfg joy "arm" = Ok arm_btn -> arm_btn <> 1 ->
  get_buttons cfg joy "disarm" = Ok disarm_btn -> disarm_btn <> 1 ->
  joy_cb quaternion_from_euler cfg reverse e joy tt =
    (Ok tt, tt,
     [EvPublish "att_pub"
        (PoseStamped (get_rostime e)
           {| v_x := PyFloat fzero; v_y := PyFloat fzero;
              v_z := PyFloat fzero |}
           (quaternion_from_euler roll pitch yaw));
      EvPublish "thd_pub" (Float64 throttle)]).
Proof.
  intros (Hr & Hp & Hy & Ht) Hn Ha Hane Hd Hdne.
  rewrite (attitude_joy_cb_buttons _ _ _ _ _ _ _ _ _ _ Hr Hp Hy Ht Hn), Ha, Hd.
  apply Z.eqb_neq in Hane, Hdne. by rewrite Hane, Hdne.
Qed.
End ArmingMore.

Lemma released_buttons_publish_setpoints_witness :
  attitude_setpoint_control.joy_cb level_quaternion initial_config false
    quiet_env sample_binary64 tt
  = (Ok tt, tt,
     [EvPublish "att_pub"
        (PoseStamped 42
           {| v_x := PyFloat 0%float; v_y := PyFloat 0%float;
              v_z := PyFloat 0%float |}
           (level_quaternion (PyFloat (-1)%float) (PyFloat 1%float)
              (PyFloat 0.5%float)));
      EvPublish "thd_pub" (Float64 (PyFloat 0.625%float))]).
Proof.
  refine (released_buttons_publish_setpoints level_quaternion initial_config
            false quiet_env sample_binary64
            (PyFloat (-1)%float) (PyFloat 1%float) (PyFloat 0.5%float)
            (PyFloat 0.25%float) (PyFloat 0.625%float) 0 0 _ _ _ _ _ _);
    first [reflexivity | discriminate | by repeat split].
Defined.

Lemma pressed_button_aborts_setpoints_witness :
  exists name value,
    attitude_setpoint_control.joy_cb level_quaternion initial_config false
      quiet_env both_pressed tt
    = (Raise (NameError name), tt, [EvArming value]) /\
    (value = true <-> 1 = 1).
Proof.
  refine (pressed_button_aborts_setpoints level_quaternion initial_config false
            quiet_env both_pressed (PyFloat 0%float) (PyFloat 0%float)
            (PyFloat 0%float) (PyFloat 0%float) (PyFloat 0.5%float) 1 _ _ _ _);
    first [reflexivity | by repeat split | (left; reflexivity)].
Defined.

Lemma arm_sends_request_then_raises_witness :
  exists name,
    arm (F:=float) (S:=unit) failing_env true tt
      = (Raise (NameError name), tt, [EvArming true]) /\
    name = "fault".
Proof.
  destruct (arm_sends_request_then_raises (F:=float) failing_env true tt)
    as (name & Hrun & Hfault & _).
  exists name. split; [exact Hrun|]. apply Hfault. reflexivity.
Defined.

(** ** Velocity and position, continued *)

Section VelocityMore.
Context {F : Type} `{Float F}.
Import velocity_setpoint_control.

(** X16: the velocity callback either reads all four axes and publishes
    exactly one twist, or raises the exception of an axis read that failed
    and publishes nothing. *)
Theorem velocity_twist_or_nothing (cfg : config F) (e : env)
    (joy : Joy F) :
  (exists roll pitch yaw throttle,
      axes_are cfg joy roll pitch yaw throttle /\
      exists twist,
        joy_cb cfg e joy tt = (Ok tt, tt, [EvPublish "vel_pub" twist])) \/
  (exists ex n,
      n ∈ ["roll"; "pitch"; "yaw"; "throttle"] /\
      get_axis cfg joy n = Raise ex /\
      joy_cb cfg e joy tt = (Raise ex, tt, [])).
Proof.
  unfold joy_cb, bind, lift, emit, axes_are.
  destruct (get_axis cfg joy "roll") as [roll|ex] eqn:Hr;
    [|right; exists ex, "roll"; split; [set_solver|by split]].
  destruct (get_axis cfg joy "pitch") as [pitch|ex] eqn:Hp;
    [|right; exists ex, "pitch"; split; [set_solver|by split]].
  destruct (get_axis cfg joy "yaw") as [yaw|ex] eqn:Hy;
    [|right; exists ex, "yaw"; split; [set_solver|by split]].
  destruct (get_axis cfg joy "throttle") as [throttle|ex] eqn:Ht;
    [|right; exists ex, "throttle"; split; [set_solver|by split]].
  left. exists roll, pitch, yaw, throttle. split; [done|].
  eexists. reflexivity.
Qed.
End VelocityMore.

Section PositionMore.
Context {F : Type} `{Float F}.
Import position_setpoint_control.
Variable quaternion_from_euler : pynum F -> pynum F -> pynum F -> Quaternion F.

(** X17: from float accumulators the position callback either reads the
    four axes, all floats, moves the integrator by what it read
    ([x - pitch], [y + roll], [z + throttle]: the accumulators stay
    floats) and publishes exactly one pose, carrying the new position and
    the orientation [quaternion_from_euler(0, 0, yaw)]; or it raises the
    exception of an axis read that failed, leaves the integrator as it was
    and publishes nothing. *)
Theorem position_joy_cb_outcome (cfg : config F) (e : env) (joy : Joy F)
    (x y z : F) :
  let g := {| px := PyFloat x; py := PyFloat y; pz := PyFloat z |} in
  let out := joy_cb quaternion_from_euler cfg e joy g in
  (exists roll pitch throttle yaw,
      axes_are cfg joy (PyFloat roll) (PyFloat pitch) yaw (PyFloat throttle) /\
      let g' := {| px := PyFloat (fsub x pitch);
                   py := PyFloat (fadd y roll);
                   pz := PyFloat (fadd z throttle) |} in
      out = (Ok tt, g',
             [EvPublish "pos_pub"
                (PoseStamped (get_rostime e)
                   {| v_x := px g'; v_y := py g'; v_z := pz g' |}
                   (quaternion_from_euler (PyInt 0) (PyInt 0) yaw))])) \/
  (exists ex n,
      n ∈ ["roll"; "pitch"; "yaw"; "throttle"] /\
      get_axis cfg joy n = Raise ex /\
      out = (Raise ex, g, [])).
Proof.
  intros g out. subst out.
  destruct (get_axis cfg joy "roll") as [roll|ex] eqn:Hr; cycle 1.
  { right. exists ex, "roll". split; [set_solver|]. split; [done|].
    unfold joy_cb, bind, lift. by rewrite Hr. }
  destruct (get_axis cfg joy "pitch") as [pitch|ex] eqn:Hp; cycle 1.
  { right. exists ex, "pitch". split; [set_solver|]. split; [done|].
    unfold joy_cb, bind, lift. by rewrite Hr, Hp. }
  destruct (get_axis cfg joy "yaw") as [yaw|ex] eqn:Hy; cycle 1.
  { right. exists ex, "yaw". split; [set_solver|]. split; [done|].
    unfold joy_cb, bind, lift. by rewrite Hr, Hp, Hy. }
  destruct (get_axis cfg joy "throttle") as [throttle|ex] eqn:Ht; cycle 1.
  { right. exists ex, "throttle". split; [set_solver|]. split; [done|].
    unfold joy_cb, bind, lift. by rewrite Hr, Hp, Hy, Ht. }
  destruct (get_axis_float _ _ _ _ Hr) as [r ->].
  destruct (get_axis_float _ _ _ _ Hp) as [p ->].
  destruct (get_axis_float _ _ _ _ Ht) as [t ->].
  left. exists r, p, t, yaw. split; [by repeat split|].
  exact (position_joy_cb_step quaternion_from_euler cfg e joy x y z r p t yaw
           Hr Hp Hy Ht).
Qed.
End PositionMore.

Section PositionSum.
Import position_setpoint_control.
Variable quaternion_from_euler : pynum Q -> pynum Q -> pynum Q -> Quaternion Q.

(** X18: over the rationals, after any number of readable samples the
    integrator holds the start position minus the sum of the pitch values,
    plus the sum of the roll values, plus the sum of the throttle values:
    the result depends on how many samples arrive, not on time. *)
Theorem position_accumulates (cfg : config Q) (e : env)
    (samples : list (Joy Q)) (ds : list (Q * Q * Q)) (x y z : Q) :
  Forall2 (fun joy d =>
             exists yaw, axes_are cfg joy (PyFloat d.1.1) (PyFloat d.1.2) yaw
                                  (PyFloat d.2))
          samples ds ->
  exists x' y' z',
    deliver (joy_cb quaternion_from_euler cfg e) samples
            {| px := PyFloat x; py := PyFloat y; pz := PyFloat z |}
    = {| px := PyFloat x'; py := PyFloat y'; pz := PyFloat z' |} /\
    (x' == x - (total ds).1.2)%Q /\
    (y' == y + (total ds).1.1)%Q /\
    (z' == z + (total ds).2)%Q.
Proof.
  intros Hall. revert x y z.
  induction Hall as [|joy [[r p] t] samples ds (yaw & Hr & Hp & Hy & Ht) _ IH];
    intros x y z.
  - exists x, y, z. split; [reflexivity|]. cbn. repeat split; ring.
  - cbn [deliver]. cbn [fst snd] in Hr, Hp, Ht.
    rewrite (position_joy_cb_step quaternion_from_euler cfg e joy x y z r p t
               yaw Hr Hp Hy Ht).
    cbn [fst snd].
    destruct (IH (x - p)%Q (y + r)%Q (z + t)%Q) as (x' & y' & z' & Hrun & Hx & Hy' & Hz).
    exists x', y', z'. split; [exact Hrun|].
    cbn [total]. destruct (total ds) as [[sr sp] st]. cbn [fst snd] in *.
    rewrite Hx, Hy', Hz. repeat split; ring.
Qed.
End PositionSum.

Lemma position_accumulates_witness :
  exists x' y' z',
    deliver (position_setpoint_control.joy_cb level_quaternion_Q
               initial_config quiet_env)
            [pitch_forward_Q 0; pitch_forward_Q (1 # 2)]
            {| position_setpoint_control.px := PyFloat 10%Q;
               position_setpoint_control.py := PyFloat 20%Q;
               position_setpoint_control.pz := PyFloat 30%Q |}
    = {| position_setpoint_control.px := PyFloat x';
         position_setpoint_control.py := PyFloat y';
         position_setpoint_control.pz := PyFloat z' |} /\
    (x' == 10 - (total [(0, 1, 0); (0, 1, 0)]%Q).1.2)%Q /\
    (y' == 20 + (total [(0, 1, 0); (0, 1, 0)]%Q).1.1)%Q /\
    (z' == 30 + (total [(0, 1, 0); (0, 1, 0)]%Q).2)%Q.
Proof.
  refine (position_accumulates level_quaternion_Q initial_config quiet_env
            [pitch_forward_Q 0; pitch_forward_Q (1 # 2)]
            [(0, 1, 0); (0, 1, 0)]%Q 10 20 30 _).
  repeat constructor.
  - exists (PyFloat 0%Q). repeat split.
  - exists (PyFloat (1 # 2)%Q). repeat split.
Defined.
